(** * BiblioAI client: catalog loader, search filter, request interceptor, book card

    A shallow embedding of the client logic of
    [frontend/src/pages/Books.jsx], [frontend/src/services/api.js] and
    [frontend/src/components/BookCard.jsx].

    JavaScript values are an inductive type, strings are sequences of
    UTF-16 code units, numbers are IEEE-754 binary64 values
    ([spec_float] of the Standard Library).  Code that can throw returns
    an [outcome]; code that writes React state, toasts or the console
    runs in a small state-and-exception monad [M] over a [World]. *)

From Stdlib Require Import ZArith NArith Bool List Lia.
From Stdlib Require Import Floats.SpecFloat.
From stdpp Require Import gmap strings.

Local Open Scope list_scope.

(** ** Strings *)

(** A JavaScript string is a sequence of 16-bit code units. *)
Abbreviation jsstring := (list N) (only parsing).

(** [u] reads an ASCII literal of the source as a JavaScript string. *)
Definition u (s : string) : jsstring :=
  map (fun c => N.of_nat (Ascii.nat_of_ascii c)) (String.list_ascii_of_string s).

(** [String.prototype.startsWith] at position 0, used by [includes]. *)
Fixpoint startsWith (s t : jsstring) {struct t} : bool :=
  match t, s with
  | [], _ => true
  | _ :: _, [] => false
  | b :: t', a :: s' => N.eqb a b && startsWith s' t'
  end.

(** [String.prototype.includes]: [t] occurs in [s] at some index. *)
Fixpoint includes (s t : jsstring) : bool :=
  startsWith s t ||
  match s with
  | [] => false
  | _ :: s' => includes s' t
  end.

(** [toLowerCase] restricted to ASCII letters; it agrees with
    [String.prototype.toLowerCase] on strings of ASCII code units. *)
Definition asciiLowerUnit (c : N) : N :=
  if (65 <=? c)%N && (c <=? 90)%N then (c + 32)%N else c.

Definition asciiLower (s : jsstring) : jsstring := map asciiLowerUnit s.

(** ** Numbers *)

Abbreviation number := spec_float (only parsing).

Definition prec : Z := 53.
Definition emax : Z := 1024.

Definition NaN : number := S754_nan.
Definition zero : number := S754_zero false.

(** The binary64 value of a positive integer below 2^53 (array and
    string lengths are below 2^32): the mantissa is shifted to 53 bits. *)
Definition num_of_pos (p : positive) : number :=
  let d := digits2_pos p in
  S754_finite false (Pos.shiftl p (53 - Npos d)) (Z.pos d - 53).

Definition num_of_nat (n : nat) : number :=
  match n with
  | O => zero
  | S _ => num_of_pos (Pos.of_nat n)
  end.

(** A decimal literal with one fractional digit, such as [4.2]: the
    correctly rounded quotient, which is the value the literal denotes. *)
Definition num_of_tenths (n : nat) : number :=
  SFdiv prec emax (num_of_nat n) (num_of_nat 10).

(** [x > 0] on numbers. *)
Definition num_gt0 (x : number) : bool := SFltb zero x.

(** ** Values *)

#[local] Set Warnings "-register-all".

Inductive jsval : Type :=
| JUndefined
| JNull
| JBool (b : bool)
| JNum (n : number)
| JStr (s : jsstring)
| JArr (elems : list jsval)
| JObj (fields : list (jsstring * jsval)).

(** ECMAScript [ToBoolean]. *)
Definition ToBoolean (v : jsval) : bool :=
  match v with
  | JUndefined | JNull => false
  | JBool b => b
  | JNum (S754_zero _) | JNum S754_nan => false
  | JNum _ => true
  | JStr [] => false
  | JStr _ => true
  | JArr _ | JObj _ => true
  end.

Definition Array_isArray (v : jsval) : bool :=
  match v with
  | JArr _ => true
  | _ => false
  end.

(** ** Exceptions *)

Inductive exn : Type :=
| TypeError
| NetworkError
| HttpError (status : Z) (body : jsval).

Inductive outcome (A : Type) : Type :=
| Ret (a : A)
| Throw (e : exn).
Arguments Ret {A} a.
Arguments Throw {A} e.

Definition obind {A B} (c : outcome A) (k : A -> outcome B) : outcome B :=
  match c with
  | Ret a => k a
  | Throw e => Throw e
  end.

(** Own property of an object literal or parsed JSON object. *)
Fixpoint lookup_field (k : jsstring) (fields : list (jsstring * jsval)) : jsval :=
  match fields with
  | [] => JUndefined
  | (k', v) :: rest => if decide (k = k') then v else lookup_field k rest
  end.

(** Property read [v.k], for the property names the program reads
    ([data], [books], [length], [title], [author], [genre], [rating]):
    apart from [length] on arrays and strings, no built-in prototype
    defines them. Reading a property of [null] or [undefined] throws. *)
Definition get (v : jsval) (k : jsstring) : outcome jsval :=
  match v with
  | JUndefined | JNull => Throw TypeError
  | JObj fields => Ret (lookup_field k fields)
  | JArr l =>
      Ret (if decide (k = u "length") then JNum (num_of_nat (length l)) else JUndefined)
  | JStr s =>
      Ret (if decide (k = u "length") then JNum (num_of_nat (length s)) else JUndefined)
  | JBool _ | JNum _ => Ret JUndefined
  end.

(** Optional chaining [v?.k]. *)
Definition get_opt (v : jsval) (k : jsstring) : outcome jsval :=
  match v with
  | JUndefined | JNull => Ret JUndefined
  | _ => get v k
  end.

(** ** The page state and its effects *)

Inductive level : Type := LogLevel | ErrorLevel.

Inductive logarg : Type :=
| ArgVal (v : jsval)
| ArgExn (e : exn).

Inductive toast_kind : Type := ToastError | ToastSuccess.

(** The React state of the [Books] page ([useState] cells), the toasts
    shown so far and the console lines written so far (oldest first). *)
Record World : Type := mkWorld {
  books : jsval;
  loading : bool;
  viewMode : jsstring;
  searchTerm : jsstring;
  toasts : list (toast_kind * jsstring);
  console : list (level * list logarg)
}.

(** The state a fresh mount starts from (lines 84-87 of Books.jsx). *)
Definition initialWorld : World :=
  {| books := JArr []; loading := true; viewMode := u "grid";
     searchTerm := []; toasts := []; console := [] |}.

Definition M (A : Type) : Type := World -> outcome A * World.

Definition ret {A} (a : A) : M A := fun w => (Ret a, w).

Definition bind {A B} (c : M A) (k : A -> M B) : M B :=
  fun w =>
    match c w with
    | (Ret a, w') => k a w'
    | (Throw e, w') => (Throw e, w')
    end.

Definition lift {A} (c : outcome A) : M A := fun w => (c, w).

Notation "'do' x <- c ; k" := (bind c (fun x => k))
  (at level 10, x name, c at level 100, k at level 200, only parsing).
Notation "'get!' x <- c ; k" := (obind c (fun x => k))
  (at level 10, x name, c at level 100, k at level 200, only parsing).

Definition setBooks (v : jsval) : M unit :=
  fun w => (Ret tt, {| books := v; loading := loading w; viewMode := viewMode w;
                       searchTerm := searchTerm w; toasts := toasts w;
                       console := console w |}).

Definition setLoading (b : bool) : M unit :=
  fun w => (Ret tt, {| books := books w; loading := b; viewMode := viewMode w;
                       searchTerm := searchTerm w; toasts := toasts w;
                       console := console w |}).

Definition setSearchTerm (s : jsstring) : M unit :=
  fun w => (Ret tt, {| books := books w; loading := loading w; viewMode := viewMode w;
                       searchTerm := s; toasts := toasts w;
                       console := console w |}).

Definition toast_error (msg : jsstring) : M unit :=
  fun w => (Ret tt, {| books := books w; loading := loading w; viewMode := viewMode w;
                       searchTerm := searchTerm w;
                       toasts := toasts w ++ [(ToastError, msg)];
                       console := console w |}).

Definition console_write (lv : level) (args : list logarg) : M unit :=
  fun w => (Ret tt, {| books := books w; loading := loading w; viewMode := viewMode w;
                       searchTerm := searchTerm w; toasts := toasts w;
                       console := console w ++ [(lv, args)] |}).

Definition console_log := console_write LogLevel.
Definition console_error := console_write ErrorLevel.

(** [try { body } catch (error) { handler } finally { fin }]: the
    handler runs when the body throws; [fin] runs in every case, and an
    exception of [fin] replaces the outcome. *)
Definition try_catch_finally {A} (body : M A) (handler : exn -> M A) (fin : M unit) : M A :=
  fun w =>
    let '(r, w1) :=
      match body w with
      | (Ret a, w1) => (Ret a, w1)
      | (Throw e, w1) => handler e w1
      end in
    match fin w1 with
    | (Ret _, w2) => (r, w2)
    | (Throw e, w2) => (Throw e, w2)
    end.

(** ** The built-in dataset (lines 8-81 of Books.jsx) *)

Definition mkBook (id : nat) (title author description cover_url : string)
    (rating : number) (genre : string) (published_year pages : nat) (isbn : string) : jsval :=
  JObj [ (u "id", JNum (num_of_nat id));
         (u "title", JStr (u title));
         (u "author", JStr (u author));
         (u "description", JStr (u description));
         (u "cover_url", JStr (u cover_url));
         (u "rating", JNum rating);
         (u "genre", JStr (u genre));
         (u "published_year", JNum (num_of_nat published_year));
         (u "pages", JNum (num_of_nat pages));
         (u "isbn", JStr (u isbn)) ].

Definition MOCK_LIST : list jsval :=
  [ mkBook 1 "The Great Gatsby" "F. Scott Fitzgerald"
      "A story of decadence and idealism in the Jazz Age"
      "https://m.media-amazon.com/images/I/71FTb9X6wsL._AC_UF1000,1000_QL80_.jpg"
      (num_of_tenths 42) "Classic" 1925 218 "9780743273565";
    mkBook 2 "To Kill a Mockingbird" "Harper Lee"
      "A novel about racial injustice and moral growth"
      "https://m.media-amazon.com/images/I/71FxgtFKcQL._AC_UF1000,1000_QL80_.jpg"
      (num_of_tenths 43) "Fiction" 1960 281 "9780446310789";
    mkBook 3 "1984" "George Orwell"
      "A dystopian social science fiction novel"
      "https://m.media-amazon.com/images/I/71kxa1-0mfL._AC_UF1000,1000_QL80_.jpg"
      (num_of_tenths 42) "Dystopian" 1949 328 "9780451524935";
    mkBook 4 "Pride and Prejudice" "Jane Austen"
      "A romantic novel of manners"
      "https://m.media-amazon.com/images/I/71Q1tPupKjL._AC_UF1000,1000_QL80_.jpg"
      (num_of_tenths 43) "Romance" 1813 432 "9780141439518";
    mkBook 5 "The Hobbit" "J.R.R. Tolkien"
      "A fantasy novel about Bilbo Baggins' adventure"
      "https://m.media-amazon.com/images/I/710+HcoP38L._AC_UF1000,1000_QL80_.jpg"
      (num_of_tenths 43) "Fantasy" 1937 310 "9780547928227";
    mkBook 6 "Harry Potter and the Philosopher's Stone" "J.K. Rowling"
      "The first book in the Harry Potter series"
      "https://m.media-amazon.com/images/I/81iqZ2HHD-L._AC_UF1000,1000_QL80_.jpg"
      (num_of_tenths 45) "Fantasy" 1997 223 "9780747532699" ].

Definition MOCK_BOOKS : jsval := JArr MOCK_LIST.

(** ** The HTTP client (api.js) as the loader sees it *)

Record response : Type := mkResponse { status : Z; data : jsval }.

(** What the backend does with [GET /books]: no reply at all (transport
    failure), or a status and a parsed body. *)
Inductive reply : Type :=
| NoReply
| Reply (r : response).

(** axios settles a request by its default [validateStatus]: the
    instance of api.js sets only [baseURL] and [headers]. *)
Definition validateStatus (st : Z) : bool := (200 <=? st)%Z && (st <? 300)%Z.

(** [booksAPI.getAll()], as the outcome of awaiting its promise. *)
Definition booksAPI_getAll (backend : reply) : outcome response :=
  match backend with
  | NoReply => Throw NetworkError
  | Reply r =>
      if validateStatus (status r) then Ret r
      else Throw (HttpError (status r) (data r))
  end.

Definition await {A} (p : outcome A) : M A := lift p.

(** ** Catalog loader ([fetchBooks], lines 93-119 of Books.jsx) *)

Inductive source : Type := RemoteFlat | RemoteNested | Fallback.

Definition msg_flat : jsstring := u "Loaded books from backend:".
Definition msg_nested : jsstring := u "Loaded books from backend (nested):".
Definition msg_empty : jsstring := u "Backend returned empty, using mock data".
Definition msg_failed : jsstring := u "Failed to fetch books, using mock data:".
Definition msg_notice : jsstring := u "Using demo data. Backend connection failed.".

Section Loader.

(** [ToNumber(ToPrimitive(v))] of the JavaScript runtime for a string,
    an array or an object [v]; it can throw for an object. *)
Variable ToNumber_coerce : jsval -> outcome number.

Definition ToNumber (v : jsval) : outcome number :=
  match v with
  | JUndefined => Ret NaN
  | JNull => Ret zero
  | JBool b => Ret (if b then num_of_nat 1 else zero)
  | JNum n => Ret n
  | JStr _ | JArr _ | JObj _ => ToNumber_coerce v
  end.

(** [v > 0]. *)
Definition js_gt0 (v : jsval) : outcome bool :=
  get! n <- ToNumber v; Ret (num_gt0 n).

(** [response.data && Array.isArray(response.data) && response.data.length > 0] *)
Definition flat_nonempty (d : jsval) : outcome bool :=
  if ToBoolean d then
    if Array_isArray d then
      get! len <- get d (u "length"); js_gt0 len
    else Ret false
  else Ret false.

(** [response.data?.books && response.data.books.length > 0] *)
Definition nested_nonempty (d : jsval) : outcome bool :=
  get! bs <- get_opt d (u "books");
  if ToBoolean bs then
    get! bs' <- get d (u "books");
    get! len <- get bs' (u "length");
    js_gt0 len
  else Ret false.

(** The [try] block of [fetchBooks]. *)
Definition try_block (backend : reply) : M unit :=
  do response <- await (booksAPI_getAll backend);
  do flat <- lift (flat_nonempty (data response));
  if (flat : bool) then
    do _ <- setBooks (data response);
    do len <- lift (get (data response) (u "length"));
    console_log [ArgVal (JStr msg_flat); ArgVal len]
  else
    do nested <- lift (nested_nonempty (data response));
    if (nested : bool) then
      do bs <- lift (get (data response) (u "books"));
      do _ <- setBooks bs;
      do len <- lift (get bs (u "length"));
      console_log [ArgVal (JStr msg_nested); ArgVal len]
    else
      do _ <- console_log [ArgVal (JStr msg_empty)];
      setBooks MOCK_BOOKS.

(** The [catch (error)] block. *)
Definition catch_block (error : exn) : M unit :=
  do _ <- console_error [ArgVal (JStr msg_failed); ArgExn error];
  do _ <- setBooks MOCK_BOOKS;
  toast_error msg_notice.

Definition fetchBooks (backend : reply) : M unit :=
  try_catch_finally (try_block backend) catch_block (setLoading false).

End Loader.

(** The branch a load took, read off the last console line it wrote. *)
Definition source_of_line (line : level * list logarg) : option source :=
  match line with
  | (LogLevel, ArgVal (JStr m) :: _) =>
      if decide (m = msg_flat) then Some RemoteFlat
      else if decide (m = msg_nested) then Some RemoteNested
      else if decide (m = msg_empty) then Some Fallback
      else None
  | (ErrorLevel, ArgVal (JStr m) :: _) =>
      if decide (m = msg_failed) then Some Fallback else None
  | _ => None
  end.

Definition load_source (w : World) : option source :=
  match last (console w) with
  | Some line => source_of_line line
  | None => None
  end.

(** ** Search filter ([filteredBooks], lines 121-125 of Books.jsx) *)

Definition useBooks : M jsval := fun w => (Ret (books w), w).
Definition useSearchTerm : M jsstring := fun w => (Ret (searchTerm w), w).

(** [Array.prototype.filter]: the callback runs on the elements in index
    order; an element is kept when the callback's value is truthy, and
    the kept elements form a new array. *)
Fixpoint Array_filter (callback : jsval -> M jsval) (elems : list jsval) : M (list jsval) :=
  match elems with
  | [] => ret []
  | x :: rest =>
      do keep <- callback x;
      do kept <- Array_filter callback rest;
      ret (if ToBoolean keep then x :: kept else kept)
  end.

(** The method call [v.filter(callback)]: only arrays have the method. *)
Definition call_filter (v : jsval) (callback : jsval -> M jsval) : M jsval :=
  match v with
  | JArr elems => do kept <- Array_filter callback elems; ret (JArr kept)
  | _ => lift (Throw TypeError)
  end.

Definition k_title : jsstring := u "title".
Definition k_author : jsstring := u "author".
Definition k_genre : jsstring := u "genre".

Section Filter.

(** [String.prototype.toLowerCase] of the JavaScript runtime. *)
Variable toLowerCase : jsstring -> jsstring.

(** [book.k?.toLowerCase().includes(searchTerm.toLowerCase())]: the
    chain stops with [undefined] when the field is [undefined] or
    [null]; a field that is no string has no [toLowerCase] method. *)
Definition field_includes (book : jsval) (k term : jsstring) : outcome jsval :=
  get! f <- get book k;
  match f with
  | JUndefined | JNull => Ret JUndefined
  | JStr s => Ret (JBool (includes (toLowerCase s) (toLowerCase term)))
  | JBool _ | JNum _ | JArr _ | JObj _ => Throw TypeError
  end.

(** The arrow function passed to [filter]: [title || author || genre]. *)
Definition book_matches (term : jsstring) (book : jsval) : outcome jsval :=
  get! t <- field_includes book k_title term;
  if ToBoolean t then Ret t
  else
    get! a <- field_includes book k_author term;
    if ToBoolean a then Ret a
    else field_includes book k_genre term.

Definition filteredBooks : M jsval :=
  do bs <- useBooks;
  do term <- useSearchTerm;
  call_filter bs (fun book => lift (book_matches term book)).

(** *** The filter contract in the words of the specification *)

(** [s] contains [t] as a case-insensitive substring. *)
Definition ci_contains (s t : jsstring) : Prop :=
  exists pre post, toLowerCase s = pre ++ toLowerCase t ++ post.

(** A record matches a term when one of its title, author and genre
    is present and contains the term. *)
Definition Matches (term : jsstring) (book : jsval) : Prop :=
  exists k s,
    In k [k_title; k_author; k_genre] /\
    get book k = Ret (JStr s) /\
    ci_contains s term.

End Filter.

(** A record of the data model, as far as the filter reads it: each of
    title, author and genre is a string or absent ([undefined], [null]). *)
Definition text_or_absent (v : jsval) : Prop :=
  v = JUndefined \/ v = JNull \/ exists s, v = JStr s.

Definition searchable (book : jsval) : Prop :=
  forall k, In k [k_title; k_author; k_genre] ->
    exists v, get book k = Ret v /\ text_or_absent v.

(** A record with at least one of title, author and genre present. *)
Definition has_text (book : jsval) : Prop :=
  exists k s, In k [k_title; k_author; k_genre] /\ get book k = Ret (JStr s).

(** [Selects P l r]: [r] is exactly the elements of [l] that satisfy [P],
    in their order in [l]. *)
Inductive Selects {A : Type} (P : A -> Prop) : list A -> list A -> Prop :=
| Selects_nil : Selects P [] []
| Selects_keep x l r : P x -> Selects P l r -> Selects P (x :: l) (x :: r)
| Selects_drop x l r : ~ P x -> Selects P l r -> Selects P (x :: l) r.

(** ** Book card rating ([BookCard], lines 39-46 of BookCard.jsx) *)

(** [a || b] once both operands are evaluated (the right one is a literal). *)
Definition js_or (a b : jsval) : jsval := if ToBoolean a then a else b.

Definition four : number := num_of_nat 4.

(** [Math.floor] on a number. *)
Definition Math_floor (x : number) : number :=
  match x with
  | S754_finite s m e =>
      if (0 <=? e)%Z then x
      else
        match Z.shiftr (cond_Zopp s (Z.pos m)) (- e) with
        | Z0 => S754_zero s
        | Zpos p => num_of_pos p
        | Zneg p => SFopp (num_of_pos p)
        end
  | _ => x
  end.

Section BookCard.

(** [Number.prototype.toFixed(1)] of the JavaScript runtime. *)
Variable toFixed1 : number -> jsstring.

(** [book.rating || 4.0], the number both the stars and the text show. *)
Definition rating_shown (book : jsval) : outcome jsval :=
  get! r <- get book (u "rating");
  Ret (js_or r (JNum four)).

(** The five stars, [i < Math.floor(book.rating || 4)] for [i] from 0
    to 4, and the text [(book.rating || 4.0).toFixed(1)]. A truthy
    rating that is no number has no [toFixed] method, so the render
    throws whatever [Math.floor] made of it. *)
Definition rating_view (book : jsval) : outcome (list bool * jsstring) :=
  get! v <- rating_shown book;
  match v with
  | JNum n =>
      Ret (map (fun i => SFltb (num_of_nat i) (Math_floor n)) (seq 0 5), toFixed1 n)
  | _ => Throw TypeError
  end.

End BookCard.

(** ** Request interceptor (lines 12-18 of api.js) *)

Record AxiosConfig : Type := mkConfig {
  url : jsstring;
  method : jsstring;
  baseURL : jsstring;
  headers : gmap (list N) (list N);
  payload : option jsval
}.

Definition k_token : jsstring := u "token".
Definition k_Authorization : jsstring := u "Authorization".

(** [localStorage.getItem(key)]: [None] stands for [null]. *)
Definition getItem (localStorage : gmap (list N) (list N)) (key : jsstring) : option jsstring :=
  localStorage !! key.

Definition requestInterceptor (localStorage : gmap (list N) (list N))
    (config : AxiosConfig) : AxiosConfig :=
  match getItem localStorage k_token with
  | Some token =>
      if ToBoolean (JStr token) then
        {| url := url config; method := method config; baseURL := baseURL config;
           headers := <[k_Authorization := u "Bearer " ++ token]> (headers config);
           payload := payload config |}
      else config
  | None => config
  end.

(** ** Concrete instances used in examples *)

(** A runtime coercion that answers [NaN]; the examples never reach it. *)
Definition coerce_nan : jsval -> outcome number := fun _ => Ret NaN.

Definition ok_reply (body : jsval) : reply := Reply (mkResponse 200 body).

Definition dune : jsval :=
  JObj [ (u "id", JNum (num_of_nat 1)); (u "title", JStr (u "Dune"));
         (u "author", JStr (u "Herbert")); (u "genre", JStr (u "Sci-Fi")) ].

(** A record of the data model that has an identifier only: title,
    author and genre may all be absent. *)
Definition untitled : jsval := JObj [ (u "id", JNum (num_of_nat 7)) ].

(** A page that has loaded [catalog] and holds [term] in its search box. *)
Definition page (catalog : jsval) (term : jsstring) : World :=
  {| books := catalog; loading := false; viewMode := u "grid";
     searchTerm := term; toasts := []; console := [] |}.

(** ** Proof steps shared by the loader lemmas *)

(** Run [fetchBooks] on a request that [Hresp] says was answered with a
    response, up to the first condition of the [try] block. *)
Ltac run_loader Hresp :=
  unfold fetchBooks, try_catch_finally, try_block, bind, await, lift;
  rewrite Hresp.

(** Read the load source off a console that ends in a known line. *)
Ltac read_source :=
  unfold load_source; simpl; now rewrite last_snoc.

(** ** The rest of the client: sign-in form, navigation bar, storage

    [LoginForm.jsx] and the navigation bar share the browser's
    [localStorage] with the request interceptor. Their state, the toasts
    and the router's history are one record. Storage quota errors are not
    modelled. *)

Record FormData : Type := mkFormData {
  email : jsstring;
  password : jsstring;
  name : jsstring;
  phone : jsstring
}.

Record App : Type := mkApp {
  storage : gmap (list N) (list N);
  isLogin : bool;
  isLoading : bool;
  formData : FormData;
  isLoggedIn : bool;
  searchQuery : jsstring;
  notices : list (toast_kind * jsval);
  visited : list jsstring
}.

Definition Act (A : Type) : Type := App -> outcome A * App.

Definition aret {A} (x : A) : Act A := fun a => (Ret x, a).

Definition abind {A B} (c : Act A) (k : A -> Act B) : Act B :=
  fun a =>
    match c a with
    | (Ret x, a') => k x a'
    | (Throw e, a') => (Throw e, a')
    end.

Definition alift {A} (c : outcome A) : Act A := fun a => (c, a).

Notation "'act' x <- c ; k" := (abind c (fun x => k))
  (at level 10, x name, c at level 100, k at level 200, only parsing).

Definition a_try_catch_finally {A} (body : Act A) (handler : exn -> Act A)
    (fin : Act unit) : Act A :=
  fun a =>
    let '(r, a1) :=
      match body a with
      | (Ret x, a1) => (Ret x, a1)
      | (Throw e, a1) => handler e a1
      end in
    match fin a1 with
    | (Ret _, a2) => (r, a2)
    | (Throw e, a2) => (Throw e, a2)
    end.

Definition with_storage (s : gmap (list N) (list N)) (a : App) : App :=
  {| storage := s; isLogin := isLogin a; isLoading := isLoading a;
     formData := formData a; isLoggedIn := isLoggedIn a;
     searchQuery := searchQuery a; notices := notices a; visited := visited a |}.

Definition setIsLoading (b : bool) : Act unit :=
  fun a => (Ret tt, {| storage := storage a; isLogin := isLogin a; isLoading := b;
                       formData := formData a; isLoggedIn := isLoggedIn a;
                       searchQuery := searchQuery a; notices := notices a;
                       visited := visited a |}).

Definition setIsLoggedIn (b : bool) : Act unit :=
  fun a => (Ret tt, {| storage := storage a; isLogin := isLogin a;
                       isLoading := isLoading a; formData := formData a;
                       isLoggedIn := b; searchQuery := searchQuery a;
                       notices := notices a; visited := visited a |}).

Definition toast (kind : toast_kind) (msg : jsval) : Act unit :=
  fun a => (Ret tt, {| storage := storage a; isLogin := isLogin a;
                       isLoading := isLoading a; formData := formData a;
                       isLoggedIn := isLoggedIn a; searchQuery := searchQuery a;
                       notices := notices a ++ [(kind, msg)];
                       visited := visited a |}).

Definition navigate (path : jsstring) : Act unit :=
  fun a => (Ret tt, {| storage := storage a; isLogin := isLogin a;
                       isLoading := isLoading a; formData := formData a;
                       isLoggedIn := isLoggedIn a; searchQuery := searchQuery a;
                       notices := notices a; visited := visited a ++ [path] |}).

(** [localStorage.removeItem(key)]. *)
Definition localStorage_removeItem (key : jsstring) : Act unit :=
  fun a => (Ret tt, with_storage (delete key (storage a)) a).

(** Index read [v[1]]. *)
Definition get_1 (v : jsval) : outcome jsval :=
  match v with
  | JUndefined | JNull => Throw TypeError
  | JArr l => Ret (nth 1 l JUndefined)
  | JStr s =>
      Ret (match s with
           | _ :: c :: _ => JStr [c]
           | _ => JUndefined
           end)
  | JObj fields => Ret (lookup_field (u "1") fields)
  | JBool _ | JNum _ => Ret JUndefined
  end.

(** [Array.prototype.join] on an array of strings. *)
Fixpoint join (sep : jsstring) (parts : list (list N)) : jsstring :=
  match parts with
  | [] => []
  | [p] => p
  | p :: rest => p ++ sep ++ join sep rest
  end.

(** [Array.prototype.map] with a callback that computes a string. *)
Fixpoint Array_map (callback : jsval -> outcome (list N)) (elems : list jsval)
    : outcome (list (list N)) :=
  match elems with
  | [] => Ret []
  | x :: rest =>
      get! y <- callback x;
      get! ys <- Array_map callback rest;
      Ret (y :: ys)
  end.

(** What a request settles to, as for [GET /books]. *)
Definition settle (r : reply) : outcome response := booksAPI_getAll r.

Section LoginForm.

(** [ToString] of the JavaScript runtime for a number, an array or an
    object; it can throw for an object. *)
Variable ToString_coerce : jsval -> outcome (list N).

(** The [message] property of a caught error: the text axios or the
    engine gave it. *)
Variable error_message : exn -> jsval.

(** The backend: the reply to a POST of [body] to [url]. *)
Variable server : jsstring -> jsval -> reply.

Definition ToString (v : jsval) : outcome (list N) :=
  match v with
  | JUndefined => Ret (u "undefined")
  | JNull => Ret (u "null")
  | JBool b => Ret (if b then u "true" else u "false")
  | JStr s => Ret s
  | JNum _ | JArr _ | JObj _ => ToString_coerce v
  end.

(** [localStorage.setItem(key, value)]: the value is stored as a string. *)
Definition localStorage_setItem (key : jsstring) (value : jsval) : Act unit :=
  act s <- alift (ToString value);
  fun a => (Ret tt, with_storage (<[key := s]> (storage a)) a).

(** [api.post(url, body)] (lines 20-24 of api.js). *)
Definition api_post (url : jsstring) (body : jsval) : outcome response :=
  settle (server url body).

Definition authAPI_login (email password : jsstring) : outcome response :=
  api_post (u "/auth/login")
    (JObj [(u "email", JStr email); (u "password", JStr password)]).

Definition authAPI_register (userData : jsval) : outcome response :=
  api_post (u "/auth/register") userData.

(** The [formData] object of the form state. *)
Definition formData_value (fd : FormData) : jsval :=
  JObj [(u "email", JStr (email fd)); (u "password", JStr (password fd));
        (u "name", JStr (name fd)); (u "phone", JStr (phone fd))].

(** The request [handleSubmit] makes: the sign-in call with the e-mail
    and the password, or the registration call with the whole form. *)
Definition auth_call (a : App) : outcome response :=
  if isLogin a
  then authAPI_login (email (formData a)) (password (formData a))
  else authAPI_register (formData_value (formData a)).

(** The [try] block of [handleSubmit] (lines 22-40 of LoginForm.jsx). *)
Definition submit_try : Act unit :=
  fun a =>
    (act response <- alift (auth_call a);
     act token <- alift (get (data response) (u "access_token"));
     act _ <- localStorage_setItem k_token token;
     act _ <- toast ToastSuccess
                (JStr (if isLogin a then u "Login successful!"
                       else u "Registration successful!"));
     navigate (u "/dashboard")) a.

(** The arrow function [err => `${err.loc[1]}: ${err.msg}`]. *)
Definition detail_line (err : jsval) : outcome (list N) :=
  get! loc <- get err (u "loc");
  get! field <- get_1 loc;
  get! a <- ToString field;
  get! msg <- get err (u "msg");
  get! b <- ToString msg;
  Ret (a ++ u ": " ++ b).

(** [error.response?.data]: only an error of a rejected status carries
    a response. *)
Definition error_response_data (error : exn) : jsval :=
  match error with
  | HttpError _ body => body
  | TypeError | NetworkError => JUndefined
  end.

(** The message the [catch] block builds (lines 42-62). *)
Definition errorMessage (error : exn) : outcome jsval :=
  let d := error_response_data error in
  if ToBoolean d then
    get! detail <- get d (u "detail");
    match detail with
    | JArr errs =>
        get! lines <- Array_map detail_line errs;
        Ret (JStr (join (u ", ") lines))
    | _ =>
        if ToBoolean detail then Ret detail
        else
          get! m <- get d (u "message");
          if ToBoolean m then Ret m else Ret (JStr (u "An error occurred"))
    end
  else if ToBoolean (error_message error) then Ret (error_message error)
  else Ret (JStr (u "An error occurred")).

Definition submit_catch (error : exn) : Act unit :=
  act msg <- alift (errorMessage error);
  toast ToastError msg.

(** [handleSubmit] (lines 18-68 of LoginForm.jsx). *)
Definition handleSubmit : Act unit :=
  act _ <- setIsLoading true;
  a_try_catch_finally submit_try submit_catch (setIsLoading false).

End LoginForm.

(** *** Navigation bar *)

(** The initial value of [isLoggedIn]: [!!localStorage.getItem('token')]. *)
Definition Navbar_mount : Act unit :=
  fun a =>
    setIsLoggedIn (match getItem (storage a) k_token with
                   | Some token => ToBoolean (JStr token)
                   | None => false
                   end) a.

Definition handleLogout : Act unit :=
  act _ <- localStorage_removeItem k_token;
  act _ <- setIsLoggedIn false;
  act _ <- toast ToastSuccess (JStr (u "Logged out successfully"));
  navigate (u "/").

(** The code units [String.prototype.trim] strips: the WhiteSpace and
    LineTerminator code points of ECMAScript. *)
Definition is_whitespace (c : N) : bool :=
  existsb (N.eqb c)
    [9; 10; 11; 12; 13; 32; 160; 5760; 8232; 8233; 8239; 8287; 12288; 65279]%N
  || ((8192 <=? c)%N && (c <=? 8202)%N).

Fixpoint trimStart (s : jsstring) : jsstring :=
  match s with
  | [] => []
  | c :: s' => if is_whitespace c then trimStart s' else s
  end.

Definition trimEnd (s : jsstring) : jsstring := rev (trimStart (rev s)).

Definition trim (s : jsstring) : jsstring := trimEnd (trimStart s).

Inductive search_effect : Type :=
| NoNavigation
| NavigateTo (path : jsstring)
| ThrowsURIError.

Section Navbar.

(** [encodeURIComponent] of the JavaScript runtime; [None] stands for
    the URIError it throws on a lone surrogate. *)
Variable encodeURIComponent : jsstring -> option (list N).

(** [handleSearch] of the navigation bar, by what it does for the
    query in the search box. *)
Definition handleSearch (searchQuery : jsstring) : search_effect :=
  if ToBoolean (JStr (trim searchQuery)) then
    match encodeURIComponent searchQuery with
    | Some q => NavigateTo (u "/books?search=" ++ q)
    | None => ThrowsURIError
    end
  else NoNavigation.

End Navbar.

(** *** Book card heading *)

(** [book.title || 'Untitled Book'] and [book.author || 'Unknown Author']
    (lines 34-35 of BookCard.jsx). *)
Definition title_shown (book : jsval) : outcome jsval :=
  get! t <- get book k_title; Ret (js_or t (JStr (u "Untitled Book"))).

Definition author_shown (book : jsval) : outcome jsval :=
  get! t <- get book k_author; Ret (js_or t (JStr (u "Unknown Author"))).

(** *** Instances used in examples *)

Definition tostring_none : jsval -> outcome (list N) := fun _ => Ret [].
Definition message_none : exn -> jsval := fun _ => JUndefined.

Definition freshApp : App :=
  {| storage := ∅; isLogin := true; isLoading := false;
     formData := mkFormData (u "a@b.c") (u "secret") [] [];
     isLoggedIn := false; searchQuery := []; notices := []; visited := [] |}.

(** A catalog entry the filter cannot read: [null] or [undefined], or a
    record whose title is neither a string nor absent. *)
Definition unreadable (book : jsval) : Prop :=
  book = JNull \/ book = JUndefined \/
  exists v, get book k_title = Ret v /\ ~ text_or_absent v.

(** An entry of a FastAPI validation error list as the form reads it:
    [err.loc[1]] is the string [field] and [err.msg] the string [msg]. *)
Definition validation_entry (err : jsval) (p : list N * list N) : Prop :=
  exists loc,
    get err (u "loc") = Ret loc /\
    get_1 loc = Ret (JStr (fst p)) /\
    get err (u "msg") = Ret (JStr (snd p)).

Definition entry_line (p : list N * list N) : list N := fst p ++ u ": " ++ snd p.

(** The toast of a successful submit. *)
Definition success_toast (a : App) : toast_kind * jsval :=
  (ToastSuccess,
   JStr (if isLogin a then u "Login successful!" else u "Registration successful!")).

(** A FastAPI entry [{loc: ["body", field], msg: msg}]. *)
Definition fastapi_entry (field msg : string) : jsval :=
  JObj [(u "loc", JArr [JStr (u "body"); JStr (u field)]); (u "msg", JStr (u msg))].

(** A server that answers every request with the same reply. *)
Definition always (r : reply) : jsstring -> jsval -> reply := fun _ _ => r.

(** * Theorems *)

(** ** Numbers and property reads *)

Lemma num_gt0_of_nat (n : nat) : num_gt0 (num_of_nat n) = negb (Nat.eqb n 0).
Proof. destruct n; reflexivity. Qed.

Lemma get_length_array (l : list jsval) :
  get (JArr l) (u "length") = Ret (JNum (num_of_nat (length l))).
Proof. unfold get. rewrite decide_True; reflexivity. Qed.

Lemma get_length_string (s : list N) :
  get (JStr s) (u "length") = Ret (JNum (num_of_nat (length s))).
Proof. unfold get. rewrite decide_True; reflexivity. Qed.

Lemma get_books_array (l : list jsval) : get (JArr l) (u "books") = Ret JUndefined.
Proof. reflexivity. Qed.

Lemma get_books_string (s : list N) : get (JStr s) (u "books") = Ret JUndefined.
Proof. reflexivity. Qed.

(** ** The two conditions of the loader *)

Lemma js_gt0_length coerce (n : nat) :
  js_gt0 coerce (JNum (num_of_nat n)) = Ret (negb (Nat.eqb n 0)).
Proof. unfold js_gt0, ToNumber, obind. now rewrite num_gt0_of_nat. Qed.

Lemma flat_nonempty_array coerce (l : list jsval) :
  flat_nonempty coerce (JArr l) = Ret (negb (Nat.eqb (length l) 0)).
Proof.
  unfold flat_nonempty. simpl ToBoolean. simpl Array_isArray. cbv iota.
  rewrite get_length_array. cbn [obind]. apply js_gt0_length.
Qed.

Lemma flat_nonempty_not_array coerce (d : jsval) :
  Array_isArray d = false -> flat_nonempty coerce d = Ret false.
Proof.
  intros H. unfold flat_nonempty. rewrite H. now destruct (ToBoolean d).
Qed.

Lemma nested_nonempty_falsy coerce (d bs : jsval) :
  get_opt d (u "books") = Ret bs -> ToBoolean bs = false ->
  nested_nonempty coerce d = Ret false.
Proof. intros H1 H2. unfold nested_nonempty. rewrite H1. simpl. now rewrite H2. Qed.

Lemma nested_nonempty_array coerce fields (l : list jsval) :
  lookup_field (u "books") fields = JArr l ->
  nested_nonempty coerce (JObj fields) = Ret (negb (Nat.eqb (length l) 0)).
Proof.
  intros H. unfold nested_nonempty. cbn [get_opt get obind]. rewrite H.
  simpl ToBoolean. cbv iota.
  rewrite get_length_array. cbn [obind]. apply js_gt0_length.
Qed.

Lemma nonempty_length {A} (l : list A) : l <> [] -> negb (Nat.eqb (length l) 0) = true.
Proof. destruct l; [congruence | reflexivity]. Qed.

(** ** Catalog loader *)

(** C1. A response (the request was answered with a 2xx status) whose
    body is a non-empty flat array: the catalog becomes exactly that
    array (same records, same order), the load source is remote-flat,
    and no notice is shown. *)
Theorem C1_flat_array_loaded_verbatim :
  forall coerce backend response (records : list jsval) w,
    booksAPI_getAll backend = Ret response ->
    data response = JArr records ->
    records <> [] ->
    exists w',
      fetchBooks coerce backend w = (Ret tt, w') /\
      books w' = JArr records /\
      load_source w' = Some RemoteFlat /\
      toasts w' = toasts w /\
      loading w' = false.
Proof.
  intros coerce backend response records w Hresp Hdata Hne.
  eexists. split.
  - run_loader Hresp. rewrite Hdata.
    rewrite flat_nonempty_array, (nonempty_length _ Hne), get_length_array.
    reflexivity.
  - simpl. repeat split. read_source.
Qed.

Lemma C1_witness :
  exists w',
    fetchBooks coerce_nan (ok_reply (JArr [dune])) initialWorld = (Ret tt, w') /\
    books w' = JArr [dune] /\
    load_source w' = Some RemoteFlat /\
    toasts w' = toasts initialWorld /\
    loading w' = false.
Proof.
  apply (C1_flat_array_loaded_verbatim coerce_nan (ok_reply (JArr [dune]))
           (mkResponse 200 (JArr [dune])) [dune] initialWorld);
    [reflexivity | reflexivity | discriminate].
Defined.

Lemma get_books_is_array (body : jsval) (records : list jsval) :
  get body (u "books") = Ret (JArr records) ->
  exists fields, body = JObj fields /\ lookup_field (u "books") fields = JArr records.
Proof.
  destruct body as [| |b|n|s|l|fields]; simpl; intros H; try discriminate.
  exists fields. split; [reflexivity | congruence].
Qed.

(** C2. A response whose body is not a non-empty flat array but has a
    field [books] that is a non-empty array: the catalog becomes exactly
    [body.books] and the load source is remote-nested. *)
Theorem C2_nested_books_loaded :
  forall coerce backend response (records : list jsval) w,
    booksAPI_getAll backend = Ret response ->
    ~ (exists l, data response = JArr l /\ l <> []) ->
    get (data response) (u "books") = Ret (JArr records) ->
    records <> [] ->
    exists w',
      fetchBooks coerce backend w = (Ret tt, w') /\
      books w' = JArr records /\
      load_source w' = Some RemoteNested /\
      toasts w' = toasts w /\
      loading w' = false.
Proof.
  intros coerce backend response records w Hresp _ Hget Hne.
  destruct (get_books_is_array _ _ Hget) as (fields & Hdata & Hf).
  eexists. split.
  - run_loader Hresp. rewrite Hdata in Hget |- *.
    rewrite flat_nonempty_not_array by reflexivity.
    rewrite (nested_nonempty_array _ _ _ Hf), (nonempty_length _ Hne).
    rewrite Hget, get_length_array.
    reflexivity.
  - simpl. repeat split. read_source.
Qed.

Lemma C2_witness :
  exists w',
    fetchBooks coerce_nan (ok_reply (JObj [(u "books", JArr [dune])])) initialWorld
      = (Ret tt, w') /\
    books w' = JArr [dune] /\
    load_source w' = Some RemoteNested /\
    toasts w' = toasts initialWorld /\
    loading w' = false.
Proof.
  apply (C2_nested_books_loaded coerce_nan (ok_reply (JObj [(u "books", JArr [dune])]))
           (mkResponse 200 (JObj [(u "books", JArr [dune])])) [dune] initialWorld);
    [reflexivity | intros (l & H & _); discriminate H | reflexivity | discriminate].
Defined.

(** When neither condition of the loader holds, the built-in dataset is
    installed and no notice is shown. *)
Lemma silent_fallback coerce backend response w :
  booksAPI_getAll backend = Ret response ->
  flat_nonempty coerce (data response) = Ret false ->
  nested_nonempty coerce (data response) = Ret false ->
  exists w',
    fetchBooks coerce backend w = (Ret tt, w') /\
    books w' = MOCK_BOOKS /\
    load_source w' = Some Fallback /\
    toasts w' = toasts w /\
    loading w' = false.
Proof.
  intros Hresp Hflat Hnested.
  eexists. split.
  - run_loader Hresp. rewrite Hflat, Hnested. reflexivity.
  - simpl. repeat split. read_source.
Qed.

(** The shapes the specification lists for the silent fallback: an empty
    array, an empty object, an empty [books] array, a missing body (axios
    hands over the empty string), and a [books] field that is [null]. *)
Lemma silent_fallback_shapes coerce backend response w :
  booksAPI_getAll backend = Ret response ->
  In (data response)
     [JArr []; JObj []; JObj [(u "books", JArr [])]; JStr []; JUndefined;
      JNull; JObj [(u "books", JNull)]] ->
  exists w',
    fetchBooks coerce backend w = (Ret tt, w') /\
    books w' = MOCK_BOOKS /\
    load_source w' = Some Fallback /\
    toasts w' = toasts w /\
    loading w' = false.
Proof.
  intros Hresp Hin. apply (silent_fallback _ _ _ _ Hresp);
    simpl in Hin; repeat (destruct Hin as [<- | Hin]; [reflexivity |]); contradiction.
Qed.

(** A request is answered with a response exactly when the backend
    replies with a 2xx status. *)
Lemma response_iff_2xx backend response :
  booksAPI_getAll backend = Ret response <->
  backend = Reply response /\ validateStatus (status response) = true.
Proof.
  unfold booksAPI_getAll. split.
  - destruct backend as [|r]; [discriminate |].
    destruct (validateStatus (status r)) eqn:E; [| discriminate].
    intros H. injection H as <-. now split.
  - intros [-> H]. now rewrite H.
Qed.

(** C3. The nested branch accepts a [books] field that is no array: for
    the body [{books: "abc"}] the catalog becomes the string ["abc"], not
    the built-in dataset, although the body carries no array at all. *)
Theorem C3_nested_string_accepted :
  forall coerce w,
    exists w',
      fetchBooks coerce (ok_reply (JObj [(u "books", JStr (u "abc"))])) w = (Ret tt, w') /\
      books w' = JStr (u "abc") /\
      books w' <> MOCK_BOOKS /\
      load_source w' = Some RemoteNested.
Proof.
  intros coerce w. eexists. split; [reflexivity |].
  simpl. repeat split; [discriminate | read_source].
Qed.

(** An exception of the [try] block, whatever it is, ends in the
    built-in dataset and the notice. *)
Lemma caught_error_falls_back coerce backend w e w1 :
  try_block coerce backend w = (Throw e, w1) ->
  exists w',
    fetchBooks coerce backend w = (Ret tt, w') /\
    books w' = MOCK_BOOKS /\
    toasts w' = toasts w1 ++ [(ToastError, u "Using demo data. Backend connection failed.")] /\
    load_source w' = Some Fallback /\
    loading w' = false.
Proof.
  intros H. eexists. split.
  - unfold fetchBooks, try_catch_finally. rewrite H. reflexivity.
  - simpl. repeat split. read_source.
Qed.

Lemma failed_fetch_throws coerce backend w :
  backend = NoReply \/ (exists r, backend = Reply r /\ validateStatus (status r) = false) ->
  exists e, try_block coerce backend w = (Throw e, w).
Proof.
  intros [-> | (r & -> & Hst)].
  - exists NetworkError. reflexivity.
  - exists (HttpError (status r) (data r)).
    unfold try_block, bind, await, lift, booksAPI_getAll. now rewrite Hst.
Qed.

(** C4. A fetch that fails (transport failure or a status outside 2xx):
    the catalog becomes the built-in dataset, the notice
    [Using demo data. Backend connection failed.] is shown, and
    [fetchBooks] itself completes without an exception. *)
Theorem C4_failed_fetch_falls_back_with_notice :
  forall coerce backend w,
    backend = NoReply \/ (exists r, backend = Reply r /\ validateStatus (status r) = false) ->
    exists w',
      fetchBooks coerce backend w = (Ret tt, w') /\
      books w' = MOCK_BOOKS /\
      toasts w' = toasts w ++ [(ToastError, u "Using demo data. Backend connection failed.")] /\
      load_source w' = Some Fallback /\
      loading w' = false.
Proof.
  intros coerce backend w H.
  destruct (failed_fetch_throws coerce backend w H) as [e He].
  exact (caught_error_falls_back _ _ _ _ _ He).
Qed.

Lemma C4_witness :
  (NoReply = NoReply \/ (exists r, NoReply = Reply r /\ validateStatus (status r) = false)) /\
  exists w',
    fetchBooks coerce_nan NoReply initialWorld = (Ret tt, w') /\
    books w' = MOCK_BOOKS /\
    toasts w' = toasts initialWorld
                  ++ [(ToastError, u "Using demo data. Backend connection failed.")] /\
    load_source w' = Some Fallback /\
    loading w' = false.
Proof.
  split; [left; reflexivity |].
  apply (C4_failed_fetch_falls_back_with_notice coerce_nan NoReply initialWorld).
  left; reflexivity.
Defined.

(** The loader never throws and always clears the loading flag. *)
Lemma fetchBooks_completes coerce backend w :
  exists w', fetchBooks coerce backend w = (Ret tt, w') /\ loading w' = false.
Proof.
  unfold fetchBooks, try_catch_finally.
  destruct (try_block coerce backend w) as [[[]|e] w1]; eexists; split; reflexivity.
Qed.

(** ** Search filter *)

Lemma startsWith_spec (s t : list N) :
  startsWith s t = true <-> exists post, s = t ++ post.
Proof.
  revert s. induction t as [|b t IH]; intros s; simpl.
  - split; [intros _; now exists s | intros _; now destruct s].
  - destruct s as [|a s].
    + split; [discriminate | intros [post H]; discriminate].
    + rewrite andb_true_iff, N.eqb_eq, IH. split.
      * intros [-> [post ->]]. now exists post.
      * intros [post H]. injection H as -> ->. split; [reflexivity | now exists post].
Qed.

Lemma includes_spec (s t : list N) :
  includes s t = true <-> exists pre post, s = pre ++ t ++ post.
Proof.
  induction s as [|a s IH]; simpl.
  - rewrite orb_false_r, startsWith_spec. split.
    + intros [post H]. now exists [], post.
    + intros (pre & post & H). destruct pre; [now exists post | discriminate].
  - rewrite orb_true_iff, startsWith_spec, IH. split.
    + intros [[post H] | (pre & post & H)].
      * now exists [], post.
      * exists (a :: pre), post. simpl. now rewrite H.
    + intros (pre & post & H). destruct pre as [|a' pre]; simpl in H.
      * left. now exists post.
      * right. injection H as _ H. now exists pre, post.
Qed.

Lemma includes_empty (s : list N) : includes s [] = true.
Proof. destruct s; reflexivity. Qed.

(** [Selects] says what its comment says: the result is determined, it
    holds the elements that satisfy the predicate and no other, and it
    keeps the order of the list. *)
Lemma Selects_unique {A} (P : A -> Prop) (l r1 r2 : list A) :
  Selects P l r1 -> Selects P l r2 -> r1 = r2.
Proof.
  intros H1. revert r2. induction H1 as [|x l r Hx _ IH|x l r Hx _ IH]; intros r2 H2;
    inversion H2; subst; try contradiction; try reflexivity.
  - f_equal. now apply IH.
  - now apply IH.
Qed.

Lemma Selects_In {A} (P : A -> Prop) (l r : list A) (x : A) :
  Selects P l r -> (In x r <-> In x l /\ P x).
Proof.
  induction 1 as [|y l r Hy _ IH|y l r Hy _ IH]; simpl.
  - tauto.
  - rewrite IH. split; [intros [-> | []]; auto | tauto].
  - rewrite IH. split; [tauto | intros [[-> | H] HP]; [contradiction | tauto]].
Qed.

Lemma Selects_sublist {A} (P : A -> Prop) (l r : list A) :
  Selects P l r -> sublist r l.
Proof. induction 1; now constructor. Qed.

(** One field of a record: a string or absent field never throws, and it
    matches exactly when it is a string that contains the term. *)
Lemma field_includes_spec toLowerCase (book : jsval) (k term : list N) (f : jsval) :
  get book k = Ret f ->
  text_or_absent f ->
  exists v,
    field_includes toLowerCase book k term = Ret v /\
    (ToBoolean v = true <-> exists s, f = JStr s /\ ci_contains toLowerCase s term).
Proof.
  intros Hget [-> | [-> | [s ->]]]; unfold field_includes; rewrite Hget; cbn [obind].
  - exists JUndefined. split; [reflexivity |]. split; [discriminate |].
    intros (s & H & _). discriminate.
  - exists JUndefined. split; [reflexivity |]. split; [discriminate |].
    intros (s & H & _). discriminate.
  - eexists. split; [reflexivity |]. cbn [ToBoolean]. rewrite includes_spec. split.
    + intros H. exists s. split; [reflexivity | exact H].
    + intros (s' & H & Hc). injection H as <-. exact Hc.
Qed.

(** An absent field yields [undefined], which is falsy. *)
Lemma field_includes_absent toLowerCase (book : jsval) (k term : list N) :
  get book k = Ret JUndefined \/ get book k = Ret JNull ->
  field_includes toLowerCase book k term = Ret JUndefined.
Proof. intros [H | H]; unfold field_includes; now rewrite H. Qed.

Lemma Matches_cases toLowerCase (term : list N) (book : jsval) :
  Matches toLowerCase term book <->
  (exists s, get book k_title = Ret (JStr s) /\ ci_contains toLowerCase s term) \/
  (exists s, get book k_author = Ret (JStr s) /\ ci_contains toLowerCase s term) \/
  (exists s, get book k_genre = Ret (JStr s) /\ ci_contains toLowerCase s term).
Proof.
  unfold Matches. split.
  - intros (k & s & Hin & Hget & Hc). simpl in Hin.
    destruct Hin as [<- | [<- | [<- | []]]]; eauto 6.
  - intros [(s & H & Hc) | [(s & H & Hc) | (s & H & Hc)]].
    + exists k_title, s. simpl. auto.
    + exists k_author, s. simpl. auto.
    + exists k_genre, s. simpl. auto.
Qed.

(** The callback on a record of the data model: it returns, and its
    value is truthy exactly when the record matches. *)
Lemma book_matches_spec toLowerCase (term : list N) (book : jsval) :
  searchable book ->
  exists v,
    book_matches toLowerCase term book = Ret v /\
    (ToBoolean v = true <-> Matches toLowerCase term book).
Proof.
  intros Hs.
  destruct (Hs k_title) as (ft & Ht & Htt); [simpl; auto |].
  destruct (Hs k_author) as (fa & Ha & Hta); [simpl; auto |].
  destruct (Hs k_genre) as (fg & Hg & Htg); [simpl; auto |].
  destruct (field_includes_spec toLowerCase book k_title term ft Ht Htt) as (vt & Et & It).
  destruct (field_includes_spec toLowerCase book k_author term fa Ha Hta) as (va & Ea & Ia).
  destruct (field_includes_spec toLowerCase book k_genre term fg Hg Htg) as (vg & Eg & Ig).
  assert (Jt : ToBoolean vt = true <->
               exists s, get book k_title = Ret (JStr s) /\ ci_contains toLowerCase s term).
  { rewrite It. split; intros (s & H & Hc); exists s; split; congruence. }
  assert (Ja : ToBoolean va = true <->
               exists s, get book k_author = Ret (JStr s) /\ ci_contains toLowerCase s term).
  { rewrite Ia. split; intros (s & H & Hc); exists s; split; congruence. }
  assert (Jg : ToBoolean vg = true <->
               exists s, get book k_genre = Ret (JStr s) /\ ci_contains toLowerCase s term).
  { rewrite Ig. split; intros (s & H & Hc); exists s; split; congruence. }
  unfold book_matches. rewrite Et. cbn [obind].
  destruct (ToBoolean vt) eqn:Bt.
  - exists vt. split; [reflexivity |].
    rewrite Matches_cases, <- Jt, <- Ja, <- Jg, Bt. tauto.
  - rewrite Ea. cbn [obind]. destruct (ToBoolean va) eqn:Ba.
    + exists va. split; [reflexivity |].
      rewrite Matches_cases, <- Jt, <- Ja, <- Jg, Ba. tauto.
    + exists vg. split; [exact Eg |].
      rewrite Matches_cases, <- Jt, <- Ja, <- Jg. intuition congruence.
Qed.

(** [filter] with a callback that only computes leaves the page state as
    it was. *)
Lemma Array_filter_lift_world (f : jsval -> outcome jsval) (l : list jsval) (w : World) :
  snd (Array_filter (fun b => lift (f b)) l w) = w.
Proof.
  induction l as [|x l IH]; [reflexivity |].
  cbn [Array_filter]. unfold bind at 1. unfold lift at 1.
  destruct (f x) as [keep|e]; [| reflexivity].
  unfold bind. destruct (Array_filter _ l w) as [[kept|e] w'] eqn:E;
    simpl in IH |- *; congruence.
Qed.

Lemma Array_filter_selects toLowerCase (term : list N) (l : list jsval) (w : World) :
  Forall searchable l ->
  exists kept,
    Array_filter (fun b => lift (book_matches toLowerCase term b)) l w = (Ret kept, w) /\
    Selects (Matches toLowerCase term) l kept.
Proof.
  induction 1 as [|x l Hx Hl (kept & E & S)].
  - exists []. split; [reflexivity | constructor].
  - destruct (book_matches_spec toLowerCase term x Hx) as (v & Ev & Iv).
    cbn [Array_filter]. unfold bind at 1. unfold lift at 1. rewrite Ev.
    unfold bind. rewrite E. unfold ret.
    destruct (ToBoolean v) eqn:B.
    + exists (x :: kept). split; [reflexivity |].
      apply Selects_keep; [now apply Iv | exact S].
    + exists kept. split; [reflexivity |].
      apply Selects_drop; [| exact S]. intros HM. apply Iv in HM. discriminate.
Qed.

(** C5. On a catalog of records of the data model, [filteredBooks]
    returns exactly the records for which title, author or genre
    contains the search term as a case-insensitive substring, in their
    original order; an absent field yields [undefined] and so never
    matches; and the page state, the catalog in it included, is the same
    after the computation as before. *)
Theorem C5_filter_selects_matching_records :
  forall toLowerCase w (catalog : list jsval),
    books w = JArr catalog ->
    Forall searchable catalog ->
    (exists kept,
       filteredBooks toLowerCase w = (Ret (JArr kept), w) /\
       Selects (Matches toLowerCase (searchTerm w)) catalog kept) /\
    (forall book k,
       get book k = Ret JUndefined \/ get book k = Ret JNull ->
       field_includes toLowerCase book k (searchTerm w) = Ret JUndefined).
Proof.
  intros toLowerCase w catalog Hb Hs. split.
  - destruct (Array_filter_selects toLowerCase (searchTerm w) catalog w Hs) as (kept & E & S).
    exists kept. split; [| exact S].
    unfold filteredBooks, bind, useBooks, useSearchTerm. rewrite Hb.
    unfold call_filter, bind. rewrite E. reflexivity.
  - intros book k H. now apply field_includes_absent.
Qed.

Lemma MOCK_LIST_searchable : Forall searchable MOCK_LIST.
Proof.
  repeat constructor; intros k Hin; simpl in Hin;
    destruct Hin as [<- | [<- | [<- | []]]];
    (eexists; split; [reflexivity | right; right; eexists; reflexivity]).
Qed.

Lemma C5_witness :
  (exists kept,
     filteredBooks asciiLower (page MOCK_BOOKS (u "tolkien"))
       = (Ret (JArr kept), page MOCK_BOOKS (u "tolkien")) /\
     Selects (Matches asciiLower (u "tolkien")) MOCK_LIST kept) /\
  (forall book k,
     get book k = Ret JUndefined \/ get book k = Ret JNull ->
     field_includes asciiLower book k (u "tolkien") = Ret JUndefined).
Proof.
  apply (C5_filter_selects_matching_records asciiLower
           (page MOCK_BOOKS (u "tolkien")) MOCK_LIST);
    [reflexivity | exact MOCK_LIST_searchable].
Defined.

(** The scenario of the specification: in the built-in dataset the term
    [tolkien] selects exactly the record of The Hobbit (author match). *)
Example filter_tolkien :
  fst (filteredBooks asciiLower (page MOCK_BOOKS (u "tolkien")))
  = Ret (JArr [nth 4 MOCK_LIST JNull]).
Proof. vm_compute. reflexivity. Qed.

(** C6, as stated, fails: a record with no title, author or genre is a
    record of the data model, and the empty term drops it. *)
Lemma C6_counterexample :
  Forall searchable [untitled] /\
  filteredBooks asciiLower (page (JArr [untitled]) [])
    = (Ret (JArr []), page (JArr [untitled]) []) /\
  JArr [] <> JArr [untitled].
Proof.
  split; [| split; [reflexivity | discriminate]].
  repeat constructor. intros k Hin. simpl in Hin.
  destruct Hin as [<- | [<- | [<- | []]]];
    (eexists; split; [reflexivity | left; reflexivity]).
Qed.

Lemma book_matches_empty_term toLowerCase (book : jsval) :
  toLowerCase [] = [] ->
  searchable book -> has_text book ->
  exists v, book_matches toLowerCase [] book = Ret v /\ ToBoolean v = true.
Proof.
  intros Hnil Hs (k & s & Hin & Hget).
  destruct (book_matches_spec toLowerCase [] book Hs) as (v & Ev & Iv).
  exists v. split; [exact Ev |]. apply Iv.
  exists k, s. repeat split; [exact Hin | exact Hget |].
  exists (toLowerCase s), []. now rewrite Hnil, app_nil_r.
Qed.

Lemma Array_filter_empty_term toLowerCase (l : list jsval) (w : World) :
  toLowerCase [] = [] ->
  Forall searchable l -> Forall has_text l ->
  Array_filter (fun b => lift (book_matches toLowerCase [] b)) l w = (Ret l, w).
Proof.
  intros Hnil Hs Ht. induction l as [|x l IH]; [reflexivity |].
  apply Forall_cons_1 in Hs as [Hx Hs]. apply Forall_cons_1 in Ht as [Tx Ht].
  destruct (book_matches_empty_term toLowerCase x Hnil Hx Tx) as (v & Ev & Bv).
  cbn [Array_filter]. unfold bind at 1. unfold lift at 1. rewrite Ev.
  unfold bind. rewrite (IH Hs Ht). unfold ret. now rewrite Bv.
Qed.

(** C6, amended. When every record is a record of the data model with
    at least one of title, author and genre present, the empty search
    term returns the full catalog, same records in the same order. *)
Theorem C6_empty_term_identity_on_texted_records :
  forall toLowerCase w (catalog : list jsval),
    toLowerCase [] = [] ->
    books w = JArr catalog ->
    searchTerm w = [] ->
    Forall searchable catalog ->
    Forall has_text catalog ->
    filteredBooks toLowerCase w = (Ret (JArr catalog), w).
Proof.
  intros toLowerCase w catalog Hnil Hb Hterm Hs Ht.
  unfold filteredBooks, bind, useBooks, useSearchTerm. rewrite Hb, Hterm.
  unfold call_filter, bind. now rewrite Array_filter_empty_term.
Qed.

Lemma MOCK_LIST_has_text : Forall has_text MOCK_LIST.
Proof.
  repeat constructor; exists k_title; eexists; (split; [simpl; auto | reflexivity]).
Qed.

Lemma C6_witness :
  filteredBooks asciiLower (page MOCK_BOOKS []) = (Ret (JArr MOCK_LIST), page MOCK_BOOKS []).
Proof.
  apply (C6_empty_term_identity_on_texted_records asciiLower (page MOCK_BOOKS []) MOCK_LIST);
    [reflexivity | reflexivity | reflexivity
     | exact MOCK_LIST_searchable | exact MOCK_LIST_has_text].
Defined.

(** Filtering the kept records again keeps them all. *)
Lemma Array_filter_again (f : jsval -> outcome jsval) (l kept : list jsval) (w w2 : World) :
  fst (Array_filter (fun b => lift (f b)) l w) = Ret kept ->
  Array_filter (fun b => lift (f b)) kept w2 = (Ret kept, w2).
Proof.
  revert kept. induction l as [|x l IH]; intros kept.
  - simpl. intros H. injection H as <-. reflexivity.
  - cbn [Array_filter]. unfold bind at 1. unfold lift at 1.
    destruct (f x) as [keep|e] eqn:Ex; [| discriminate].
    unfold bind at 1.
    destruct (Array_filter _ l w) as [[kept'|e] w'] eqn:E; [| discriminate].
    unfold ret. cbn [fst]. intros H. injection H as <-.
    specialize (IH kept' eq_refl).
    destruct (ToBoolean keep) eqn:B; [| exact IH].
    cbn [Array_filter]. unfold bind at 1. unfold lift at 1. rewrite Ex.
    unfold bind. rewrite IH. unfold ret. now rewrite B.
Qed.

(** C7. Filtering the filtered catalog by the same term gives the same
    result: installing the result of [filteredBooks] as the catalog and
    computing [filteredBooks] again yields what the first computation
    yielded (and the same exception when the first one throws). *)
Theorem C7_filter_idempotent :
  forall toLowerCase w,
    fst ((do kept <- filteredBooks toLowerCase;
          do _ <- setBooks kept;
          filteredBooks toLowerCase) w)
    = fst (filteredBooks toLowerCase w).
Proof.
  intros toLowerCase w.
  unfold filteredBooks, bind, useBooks, useSearchTerm.
  destruct (books w) as [| |b|n|s|l|fields]; try reflexivity.
  unfold call_filter, bind.
  pose proof (Array_filter_lift_world (book_matches toLowerCase (searchTerm w)) l w) as Hw.
  destruct (Array_filter _ l w) as [[kept|e] w'] eqn:E; [| reflexivity].
  simpl in Hw. subst w'. unfold ret, setBooks. cbn [books searchTerm].
  erewrite Array_filter_again; [reflexivity |]. now rewrite E.
Qed.

(** ** Request interceptor *)

(** C8, as stated, fails: the empty string stored under [token] is a
    stored credential string, and the request gets no header. *)
Lemma C8_counterexample :
  getItem {[ k_token := [] ]} k_token = Some [] /\
  headers (requestInterceptor {[ k_token := [] ]}
             (mkConfig (u "/books") (u "get") [] ∅ None)) !! k_Authorization = None.
Proof. split; reflexivity. Qed.

(** C8, amended. A non-empty string stored under [token] is sent as the
    header [Authorization: Bearer <token>]; with nothing stored, or the
    empty string, the configuration is returned as it came; in every
    case all other headers and all other fields are unchanged. *)
Theorem C8_interceptor_attaches_bearer :
  forall (localStorage : gmap (list N) (list N)) (config : AxiosConfig),
    (forall token,
       getItem localStorage k_token = Some token -> token <> [] ->
       headers (requestInterceptor localStorage config) !! k_Authorization
       = Some (u "Bearer " ++ token)) /\
    (getItem localStorage k_token = None \/ getItem localStorage k_token = Some [] ->
     requestInterceptor localStorage config = config) /\
    (forall k, k <> k_Authorization ->
       headers (requestInterceptor localStorage config) !! k = headers config !! k) /\
    url (requestInterceptor localStorage config) = url config /\
    method (requestInterceptor localStorage config) = method config /\
    baseURL (requestInterceptor localStorage config) = baseURL config /\
    payload (requestInterceptor localStorage config) = payload config.
Proof.
  intros localStorage config. unfold requestInterceptor.
  destruct (getItem localStorage k_token) as [[|c token]|] eqn:E; cbn [ToBoolean].
  - repeat split; try reflexivity. intros token H Hne. congruence.
  - repeat split; try reflexivity.
    + intros token' H _. injection H as <-. cbn [headers]. apply lookup_insert_eq.
    + intros [H | H]; discriminate.
    + intros k Hk. cbn [headers]. now apply lookup_insert_ne.
  - repeat split; try reflexivity. intros token H. discriminate.
Qed.

Example interceptor_with_token :
  headers (requestInterceptor {[ k_token := u "abc" ]}
             (mkConfig (u "/books") (u "get") [] ∅ None)) !! k_Authorization
  = Some (u "Bearer abc").
Proof. reflexivity. Qed.

(** ** Book card rating *)

Lemma rating_shown_truthy (book : jsval) (r : jsval) :
  get book (u "rating") = Ret r -> ToBoolean r = true -> rating_shown book = Ret r.
Proof. intros H B. unfold rating_shown, js_or. rewrite H. cbn [obind]. now rewrite B. Qed.

Lemma rating_shown_absent (book : jsval) :
  get book (u "rating") = Ret JUndefined -> rating_shown book = Ret (JNum four).
Proof. intros H. unfold rating_shown. now rewrite H. Qed.

(** C9. A rating of 0 is present and within 0-5, but [||] takes it for
    missing: the card shows the value 4.0 (four stars, the text of 4.0)
    instead of 0. *)
Theorem C9_zero_rating_shown_as_four :
  forall toFixed1,
    get (JObj [(u "rating", JNum zero)]) (u "rating") = Ret (JNum zero) /\
    rating_shown (JObj [(u "rating", JNum zero)]) = Ret (JNum four) /\
    rating_view toFixed1 (JObj [(u "rating", JNum zero)])
      = Ret ([true; true; true; true; false], toFixed1 four) /\
    JNum four <> JNum zero.
Proof. intros toFixed1. repeat split. discriminate. Qed.

(** ** The loader's final state *)

(** C10. The nested branch installs a [books] field that is no array:
    for the body [{books: {length: 1}}] the load completes with the
    loading flag cleared, but the catalog is an object that holds no
    record, and computing the filtered view of it throws. *)
Theorem C10_non_array_catalog_installed :
  forall coerce toLowerCase,
    exists w',
      fetchBooks coerce
        (ok_reply (JObj [(u "books", JObj [(u "length", JNum (num_of_nat 1))])]))
        initialWorld = (Ret tt, w') /\
      loading w' = false /\
      books w' = JObj [(u "length", JNum (num_of_nat 1))] /\
      (forall l, books w' <> JArr l) /\
      fst (filteredBooks toLowerCase w') = Throw TypeError.
Proof.
  intros coerce toLowerCase. eexists. split; [reflexivity |].
  simpl. repeat split. intros l. discriminate.
Qed.

(** * Further properties of the loader *)

(** The [try] block leaves the search box, the view mode, the toasts and
    the loading flag alone. *)
Lemma try_block_frame coerce backend w r w1 :
  try_block coerce backend w = (r, w1) ->
  searchTerm w1 = searchTerm w /\ viewMode w1 = viewMode w /\
  toasts w1 = toasts w /\ loading w1 = loading w.
Proof.
  unfold try_block, bind, await, lift.
  destruct (booksAPI_getAll backend) as [response|e];
    [| intros H; injection H as <- <-; auto].
  destruct (flat_nonempty coerce (data response)) as [[|]|e];
    [| | intros H; injection H as <- <-; auto].
  - cbn [setBooks].
    destruct (get (data response) (u "length")) as [len|e];
      intros H; injection H as <- <-; simpl; auto.
  - destruct (nested_nonempty coerce (data response)) as [[|]|e];
      [| | intros H; injection H as <- <-; auto].
    + destruct (get (data response) (u "books")) as [bs|e];
        [| intros H; injection H as <- <-; auto].
      cbn [setBooks].
      destruct (get bs (u "length")) as [len|e];
        intros H; injection H as <- <-; simpl; auto.
    + intros H; injection H as <- <-; simpl; auto.
Qed.

Lemma flat_true_is_array coerce (d : jsval) :
  flat_nonempty coerce d = Ret true -> exists l, d = JArr l /\ l <> [].
Proof.
  intros H. destruct d as [| |b|n|s|l|fields];
    try (rewrite flat_nonempty_not_array in H by reflexivity; discriminate).
  exists l. split; [reflexivity |].
  rewrite flat_nonempty_array in H. intros ->. discriminate.
Qed.

Lemma nested_true_books coerce (d bs : jsval) :
  nested_nonempty coerce d = Ret true ->
  get d (u "books") = Ret bs ->
  ToBoolean bs = true /\ bs <> JArr [].
Proof.
  intros H G. unfold nested_nonempty in H.
  assert (E : get_opt d (u "books") = Ret bs)
    by (destruct d; try discriminate G; exact G).
  rewrite E in H. cbn [obind] in H.
  destruct (ToBoolean bs) eqn:B; [| discriminate].
  split; [reflexivity |]. intros ->.
  rewrite G in H. cbn [obind] in H. rewrite get_length_array in H.
  cbn [obind] in H. rewrite js_gt0_length in H. discriminate.
Qed.

(** What a [try] block that returns has installed. *)
Lemma try_block_installs coerce backend w w1 :
  try_block coerce backend w = (Ret tt, w1) ->
  books w1 = MOCK_BOOKS \/
  exists response,
    booksAPI_getAll backend = Ret response /\
    ((exists l, l <> [] /\ data response = JArr l /\ books w1 = JArr l) \/
     (get (data response) (u "books") = Ret (books w1) /\
      ToBoolean (books w1) = true /\ books w1 <> JArr [])).
Proof.
  unfold try_block, bind, await, lift.
  destruct (booksAPI_getAll backend) as [response|e] eqn:R; [| discriminate].
  destruct (flat_nonempty coerce (data response)) as [[|]|e] eqn:F; [| | discriminate].
  - cbn [setBooks].
    destruct (get (data response) (u "length")) as [len|e]; [| discriminate].
    intros H; injection H as <-. right. exists response. split; [reflexivity |].
    left. destruct (flat_true_is_array _ _ F) as (l & E & Hne).
    exists l. simpl. auto.
  - destruct (nested_nonempty coerce (data response)) as [[|]|e] eqn:Nn; [| | discriminate].
    + destruct (get (data response) (u "books")) as [bs|e] eqn:G; [| discriminate].
      cbn [setBooks].
      destruct (get bs (u "length")) as [len|e]; [| discriminate].
      intros H; injection H as <-. right. exists response. split; [reflexivity |].
      right. simpl. destruct (nested_true_books _ _ _ Nn G). auto.
    + intros H; injection H as <-. left. reflexivity.
Qed.

Lemma MOCK_BOOKS_not_empty : MOCK_BOOKS <> JArr [].
Proof. unfold MOCK_BOOKS, MOCK_LIST. discriminate. Qed.

(** X1. Whatever the backend does and whatever state the page is in,
    [fetchBooks] returns normally with the loading flag cleared, and it
    leaves the search box and the view mode as they were. *)
Theorem X1_load_completes_and_keeps_search :
  forall coerce backend w,
    exists w',
      fetchBooks coerce backend w = (Ret tt, w') /\
      loading w' = false /\
      searchTerm w' = searchTerm w /\
      viewMode w' = viewMode w.
Proof.
  intros coerce backend w. unfold fetchBooks, try_catch_finally.
  destruct (try_block coerce backend w) as [[[]|e] w1] eqn:T;
    destruct (try_block_frame _ _ _ _ _ T) as (Hs & Hv & _ & _);
    eexists; (split; [reflexivity |]); simpl; auto.
Qed.

(** X2. After a load the catalog is never the empty array: an empty
    array from the backend, flat or nested, is replaced by the built-in
    dataset. *)
Theorem X2_catalog_never_empty_array :
  forall coerce backend w,
    books (snd (fetchBooks coerce backend w)) <> JArr [].
Proof.
  intros coerce backend w. unfold fetchBooks, try_catch_finally.
  destruct (try_block coerce backend w) as [[[]|e] w1] eqn:T; simpl.
  - destruct (try_block_installs _ _ _ _ T)
      as [-> | (response & _ & [(l & Hne & _ & ->) | (_ & _ & H)])].
    + exact MOCK_BOOKS_not_empty.
    + intros E. injection E as ->. now apply Hne.
    + exact H.
  - exact MOCK_BOOKS_not_empty.
Qed.

(** X3. A load shows at most one notice, and only together with the
    built-in dataset: either the toasts are as before, or exactly the
    notice [Using demo data. Backend connection failed.] was added and
    the catalog is the built-in dataset. *)
Theorem X3_notice_only_with_demo_data :
  forall coerce backend w,
    toasts (snd (fetchBooks coerce backend w)) = toasts w \/
    (toasts (snd (fetchBooks coerce backend w))
       = toasts w ++ [(ToastError, u "Using demo data. Backend connection failed.")] /\
     books (snd (fetchBooks coerce backend w)) = MOCK_BOOKS).
Proof.
  intros coerce backend w. unfold fetchBooks, try_catch_finally.
  destruct (try_block coerce backend w) as [[[]|e] w1] eqn:T;
    destruct (try_block_frame _ _ _ _ _ T) as (_ & _ & Ht & _); simpl.
  - left. exact Ht.
  - right. rewrite Ht. split; reflexivity.
Qed.

(** X4. The catalog a load installs is never made up: it is the built-in
    dataset, or the response body when that is a non-empty array, or the
    [books] field of the response body. *)
Theorem X4_catalog_provenance :
  forall coerce backend w,
    books (snd (fetchBooks coerce backend w)) = MOCK_BOOKS \/
    exists response,
      booksAPI_getAll backend = Ret response /\
      ((exists l, l <> [] /\ data response = JArr l /\
                  books (snd (fetchBooks coerce backend w)) = JArr l) \/
       (get (data response) (u "books")
          = Ret (books (snd (fetchBooks coerce backend w))) /\
        ToBoolean (books (snd (fetchBooks coerce backend w))) = true)).
Proof.
  intros coerce backend w. unfold fetchBooks, try_catch_finally.
  destruct (try_block coerce backend w) as [[[]|e] w1] eqn:T; simpl.
  - destruct (try_block_installs _ _ _ _ T)
      as [H | (response & R & [(l & Hne & D & H) | (G & B & _)])].
    + now left.
    + right. exists response. split; [exact R |]. left. exists l. auto.
    + right. exists response. split; [exact R |]. right. auto.
  - now left.
Qed.

(** X5. The shapes that fall back silently: for a response whose body is
    an empty array, an empty object, an object with an empty [books]
    array or a [null] [books] field, the empty string, [null] or
    [undefined], the catalog becomes the built-in dataset, the source is
    the fallback and no notice is shown. *)
Theorem X5_silent_fallback_shapes :
  forall coerce backend response w,
    booksAPI_getAll backend = Ret response ->
    In (data response)
       [JArr []; JObj []; JObj [(u "books", JArr [])]; JStr []; JUndefined;
        JNull; JObj [(u "books", JNull)]] ->
    exists w',
      fetchBooks coerce backend w = (Ret tt, w') /\
      books w' = MOCK_BOOKS /\
      load_source w' = Some Fallback /\
      toasts w' = toasts w /\
      loading w' = false.
Proof.
  intros coerce backend response w Hresp Hin.
  now apply (silent_fallback_shapes coerce backend response w).
Qed.

Lemma X5_witness :
  exists w',
    fetchBooks coerce_nan (ok_reply (JObj [(u "books", JArr [])])) initialWorld
      = (Ret tt, w') /\
    books w' = MOCK_BOOKS /\
    load_source w' = Some Fallback /\
    toasts w' = toasts initialWorld /\
    loading w' = false.
Proof.
  apply (X5_silent_fallback_shapes coerce_nan (ok_reply (JObj [(u "books", JArr [])]))
           (mkResponse 200 (JObj [(u "books", JArr [])])) initialWorld);
    [reflexivity | simpl; auto].
Defined.

(** * Further properties of the search filter *)

Lemma Array_filter_sublist (callback : jsval -> M jsval) (l kept : list jsval) (w w' : World) :
  Array_filter callback l w = (Ret kept, w') -> sublist kept l.
Proof.
  revert kept w w'. induction l as [|x l IH]; intros kept w w'.
  - simpl. unfold ret. intros H. injection H as <- _. constructor.
  - cbn [Array_filter]. unfold bind at 1.
    destruct (callback x w) as [[keep|e] w1]; [| discriminate].
    unfold bind at 1.
    destruct (Array_filter callback l w1) as [[kept'|e] w2] eqn:E; [| discriminate].
    unfold ret. intros H. injection H as <- _.
    specialize (IH _ _ _ E).
    destruct (ToBoolean keep); now constructor.
Qed.

(** X6. The filtered view never invents, duplicates or reorders records:
    when [filteredBooks] returns, the catalog is an array and the result
    is a subsequence of it, so the count shown is at most the size of
    the catalog. *)
Theorem X6_filtered_view_is_subsequence :
  forall toLowerCase w (v : jsval),
    fst (filteredBooks toLowerCase w) = Ret v ->
    exists catalog kept,
      books w = JArr catalog /\
      v = JArr kept /\
      sublist kept catalog /\
      length kept <= length catalog.
Proof.
  intros toLowerCase w v. unfold filteredBooks, bind, useBooks, useSearchTerm.
  destruct (books w) as [| |b|n|s|catalog|fields]; try discriminate.
  unfold call_filter, bind.
  destruct (Array_filter _ catalog w) as [[kept|e] w'] eqn:E; [| discriminate].
  unfold ret. cbn [fst]. intros H. injection H as <-.
  exists catalog, kept. pose proof (Array_filter_sublist _ _ _ _ _ E) as S.
  repeat split; [exact S | now apply sublist_length].
Qed.

Lemma X6_witness :
  exists catalog kept,
    books (page MOCK_BOOKS (u "tolkien")) = JArr catalog /\
    JArr [nth 4 MOCK_LIST JNull] = JArr kept /\
    sublist kept catalog /\
    length kept <= length catalog.
Proof.
  apply (X6_filtered_view_is_subsequence asciiLower (page MOCK_BOOKS (u "tolkien"))
           (JArr [nth 4 MOCK_LIST JNull])).
  vm_compute. reflexivity.
Defined.

Lemma get_throws_TypeError (v : jsval) (k : list N) (e : exn) :
  get v k = Throw e -> e = TypeError.
Proof. destruct v; simpl; intros H; try discriminate; congruence. Qed.

Lemma field_includes_throws_TypeError toLowerCase (book : jsval) (k term : list N) (e : exn) :
  field_includes toLowerCase book k term = Throw e -> e = TypeError.
Proof.
  unfold field_includes. destruct (get book k) as [f|e'] eqn:G; cbn [obind].
  - destruct f; intros H; try discriminate; congruence.
  - intros H. injection H as <-. now apply get_throws_TypeError in G.
Qed.

Lemma book_matches_throws_TypeError toLowerCase (term : list N) (book : jsval) (e : exn) :
  book_matches toLowerCase term book = Throw e -> e = TypeError.
Proof.
  unfold book_matches.
  destruct (field_includes toLowerCase book k_title term) as [t|e1] eqn:Et; cbn [obind].
  - destruct (ToBoolean t); [discriminate |].
    destruct (field_includes toLowerCase book k_author term) as [a|e2] eqn:Ea; cbn [obind].
    + destruct (ToBoolean a); [discriminate |].
      apply field_includes_throws_TypeError.
    + intros H. injection H as <-. now apply field_includes_throws_TypeError in Ea.
  - intros H. injection H as <-. now apply field_includes_throws_TypeError in Et.
Qed.

Lemma book_matches_unreadable toLowerCase (term : list N) (book : jsval) :
  unreadable book -> book_matches toLowerCase term book = Throw TypeError.
Proof.
  intros [-> | [-> | (v & G & Hv)]]; try reflexivity.
  unfold book_matches, field_includes. rewrite G. cbn [obind].
  destruct v as [| |b|n|s|l|fields]; try reflexivity.
  - exfalso. apply Hv. left. reflexivity.
  - exfalso. apply Hv. right. left. reflexivity.
  - exfalso. apply Hv. right. right. now exists s.
Qed.

Lemma Array_filter_unreadable toLowerCase (term : list N) (l : list jsval) (b : jsval) (w : World) :
  In b l -> unreadable b ->
  fst (Array_filter (fun x => lift (book_matches toLowerCase term x)) l w) = Throw TypeError.
Proof.
  intros Hin Hb. induction l as [|x l IH]; [contradiction |].
  cbn [Array_filter]. unfold bind at 1. unfold lift at 1.
  destruct (book_matches toLowerCase term x) as [keep|e] eqn:Ex.
  - destruct Hin as [-> | Hin].
    + rewrite (book_matches_unreadable _ _ _ Hb) in Ex. discriminate.
    + specialize (IH Hin). unfold bind.
      destruct (Array_filter _ l w) as [[kept|e] w']; simpl in IH |- *;
        [discriminate | exact IH].
  - apply book_matches_throws_TypeError in Ex. now subst e.
Qed.

(** X7. One unreadable entry breaks the whole view: when the catalog
    holds [null], [undefined], or a record whose title is neither a
    string nor absent (a number, say), [filteredBooks] throws a TypeError
    for every search term, the empty one included. *)
Theorem X7_unreadable_record_breaks_filter :
  forall toLowerCase w (catalog : list jsval) (b : jsval),
    books w = JArr catalog ->
    In b catalog ->
    unreadable b ->
    fst (filteredBooks toLowerCase w) = Throw TypeError.
Proof.
  intros toLowerCase w catalog b Hb Hin Hu.
  unfold filteredBooks, bind, useBooks, useSearchTerm. rewrite Hb.
  unfold call_filter, bind.
  pose proof (Array_filter_unreadable toLowerCase (searchTerm w) catalog b w Hin Hu) as H.
  destruct (Array_filter _ catalog w) as [[kept|e] w']; simpl in H |- *;
    [discriminate | congruence].
Qed.

Lemma X7_witness :
  fst (filteredBooks asciiLower
         (page (JArr [dune; JObj [(u "title", JNum (num_of_nat 1984))]]) []))
  = Throw TypeError.
Proof.
  apply (X7_unreadable_record_breaks_filter asciiLower
           (page (JArr [dune; JObj [(u "title", JNum (num_of_nat 1984))]]) [])
           [dune; JObj [(u "title", JNum (num_of_nat 1984))]]
           (JObj [(u "title", JNum (num_of_nat 1984))])).
  - reflexivity.
  - simpl. auto.
  - right. right. eexists. split; [reflexivity |].
    intros [H | [H | [s H]]]; discriminate.
Defined.

(** * Further properties of the book card *)

Lemma SFltb_finite_pos (m1 : positive) (e1 : Z) (m : positive) (e : Z) :
  SFltb (S754_finite false m1 e1) (S754_finite false m e)
  = match (e1 ?= e)%Z with
    | Lt => true
    | Gt => false
    | Eq => match (m1 ?= m)%positive with Lt => true | _ => false end
    end.
Proof.
  unfold SFltb, SFcompare. change (Pos.compare_cont Eq m1 m) with (m1 ?= m)%positive.
  destruct (e1 ?= e)%Z; reflexivity.
Qed.

Lemma small_numbers :
  num_of_nat 0 = S754_zero false /\
  num_of_nat 1 = S754_finite false 4503599627370496 (-52) /\
  num_of_nat 2 = S754_finite false 4503599627370496 (-51) /\
  num_of_nat 3 = S754_finite false 6755399441055744 (-51) /\
  num_of_nat 4 = S754_finite false 4503599627370496 (-50).
Proof. repeat split. Qed.

(** The stars against any number: the filled ones come first. *)
Lemma stars_prefix (y : spec_float) :
  exists k, k <= 5 /\
    map (fun i => SFltb (num_of_nat i) y) (seq 0 5)
    = repeat true k ++ repeat false (5 - k).
Proof.
  cbn [seq map].
  destruct small_numbers as (-> & -> & -> & -> & ->).
  destruct y as [s|s| |s m e].
  - exists 0. split; [lia | reflexivity].
  - destruct s; [exists 0 | exists 5]; (split; [lia | reflexivity]).
  - exists 0. split; [lia | reflexivity].
  - destruct s; [exists 0; split; [lia | reflexivity] |].
    rewrite !SFltb_finite_pos.
    change (SFltb (S754_zero false) (S754_finite false m e)) with true.
    assert (Hab : (4503599627370496 < 6755399441055744)%positive) by reflexivity.
    revert Hab.
    generalize 4503599627370496%positive, 6755399441055744%positive. intros a b Hab.
    destruct (Z.compare_spec (-52) e) as [E1|E1|E1];
      destruct (Z.compare_spec (-51) e) as [E2|E2|E2]; try lia;
      destruct (Z.compare_spec (-50) e) as [E3|E3|E3]; try lia;
      destruct (Pos.compare_spec a m) as [P1|P1|P1];
      destruct (Pos.compare_spec b m) as [P2|P2|P2]; try lia;
      first [ exists 1; split; [lia | reflexivity]
            | exists 2; split; [lia | reflexivity]
            | exists 3; split; [lia | reflexivity]
            | exists 4; split; [lia | reflexivity]
            | exists 5; split; [lia | reflexivity] ].
Qed.

(** X8. The stars of a card never have a gap: whenever the rating block
    renders, the five stars are some number of filled stars followed by
    empty ones. *)
Theorem X8_stars_are_a_prefix :
  forall toFixed1 (book : jsval) (stars : list bool) (text : list N),
    rating_view toFixed1 book = Ret (stars, text) ->
    exists k, k <= 5 /\ stars = repeat true k ++ repeat false (5 - k).
Proof.
  intros toFixed1 book stars text. unfold rating_view.
  destruct (rating_shown book) as [v|e]; [| discriminate]. cbn [obind].
  destruct v as [| |b|n|s|l|fields]; try discriminate.
  intros H. injection H as <- _. apply stars_prefix.
Qed.

Lemma X8_witness :
  exists k, k <= 5 /\
    [true; true; true; true; false] = repeat true k ++ repeat false (5 - k).
Proof.
  apply (X8_stars_are_a_prefix (fun _ => []) (nth 0 MOCK_LIST JNull)
           [true; true; true; true; false] []).
  vm_compute. reflexivity.
Defined.

(** X9. A rating that is truthy but no number (the string ["4.5"], say)
    breaks the card: the value has no [toFixed] method and the rating
    block throws a TypeError. *)
Theorem X9_non_number_rating_breaks_card :
  forall toFixed1 (book v : jsval),
    get book (u "rating") = Ret v ->
    ToBoolean v = true ->
    (forall n, v <> JNum n) ->
    rating_view toFixed1 book = Throw TypeError.
Proof.
  intros toFixed1 book v G B Hn. unfold rating_view, rating_shown, js_or.
  rewrite G. cbn [obind]. rewrite B.
  destruct v as [| |b|n|s|l|fields]; try reflexivity.
  now destruct (Hn n).
Qed.

Lemma X9_witness :
  rating_view (fun _ => []) (JObj [(u "rating", JStr (u "4.5"))]) = Throw TypeError.
Proof.
  apply (X9_non_number_rating_breaks_card (fun _ => [])
           (JObj [(u "rating", JStr (u "4.5"))]) (JStr (u "4.5")));
    [reflexivity | reflexivity | intros n; discriminate].
Defined.

(** X10. The heading of a card is never blank: for a title that is a
    string or absent the card shows a non-empty string, the title itself
    when it is non-empty and [Untitled Book] otherwise (the empty title
    included). *)
Theorem X10_heading_never_blank :
  forall (book t : jsval),
    get book k_title = Ret t ->
    text_or_absent t ->
    exists s,
      title_shown book = Ret (JStr s) /\ s <> [] /\
      (t = JStr s \/ (ToBoolean t = false /\ s = u "Untitled Book")).
Proof.
  intros book t G Ht. unfold title_shown, js_or. rewrite G. cbn [obind].
  destruct Ht as [-> | [-> | [s ->]]].
  - exists (u "Untitled Book"). repeat split; [discriminate | right; now split].
  - exists (u "Untitled Book"). repeat split; [discriminate | right; now split].
  - destruct s as [|c s].
    + exists (u "Untitled Book"). repeat split; [discriminate | right; now split].
    + exists (c :: s). repeat split; [discriminate | now left].
Qed.

Lemma X10_witness :
  exists s,
    title_shown (JObj [(u "title", JStr [])]) = Ret (JStr s) /\ s <> [] /\
    (JStr [] = JStr s \/ (ToBoolean (JStr []) = false /\ s = u "Untitled Book")).
Proof.
  apply (X10_heading_never_blank (JObj [(u "title", JStr [])]) (JStr []));
    [reflexivity | right; right; now exists []].
Defined.

(** * Request interceptor, sign-in form and navigation bar *)

(** X11. The interceptor is idempotent: running it again on a
    configuration it has already handled changes nothing. *)
Theorem X11_interceptor_idempotent :
  forall (localStorage : gmap (list N) (list N)) (config : AxiosConfig),
    requestInterceptor localStorage (requestInterceptor localStorage config)
    = requestInterceptor localStorage config.
Proof.
  intros localStorage config. unfold requestInterceptor.
  destruct (getItem localStorage k_token) as [[|c token]|]; cbn [ToBoolean]; try reflexivity.
  cbn [url method baseURL headers payload]. f_equal. apply insert_insert_eq.
Qed.

(** What a stored token means to the interceptor. *)
Lemma interceptor_with_stored_token (s : gmap (list N) (list N)) (t : list N)
    (config : AxiosConfig) :
  s !! k_token = Some t -> t <> [] ->
  headers (requestInterceptor s config) !! k_Authorization = Some (u "Bearer " ++ t).
Proof.
  intros H Hne. unfold requestInterceptor, getItem. rewrite H.
  destruct t as [|c t]; [congruence |]. cbn [ToBoolean headers].
  apply lookup_insert_eq.
Qed.

Lemma interceptor_without_token (s : gmap (list N) (list N)) (config : AxiosConfig) :
  s !! k_token = None -> requestInterceptor s config = config.
Proof. intros H. unfold requestInterceptor, getItem. now rewrite H. Qed.

(** The two ways the [try] block of [handleSubmit] ends: it throws
    before it has changed anything, or it has stored the token, shown
    the success toast and gone to the dashboard. *)
Lemma submit_try_cases ToString_coerce server (a : App) r a1 :
  submit_try ToString_coerce server a = (r, a1) ->
  (exists e, r = Throw e /\ a1 = a /\
             (auth_call server a = Throw e \/
              exists response,
                auth_call server a = Ret response /\
                (get (data response) (u "access_token") = Throw e \/
                 exists token,
                   get (data response) (u "access_token") = Ret token /\
                   ToString ToString_coerce token = Throw e))) \/
  (exists response token s,
     r = Ret tt /\
     auth_call server a = Ret response /\
     get (data response) (u "access_token") = Ret token /\
     ToString ToString_coerce token = Ret s /\
     a1 = {| storage := <[k_token := s]> (storage a); isLogin := isLogin a;
             isLoading := isLoading a; formData := formData a;
             isLoggedIn := isLoggedIn a; searchQuery := searchQuery a;
             notices := notices a ++ [success_toast a];
             visited := visited a ++ [u "/dashboard"] |}).
Proof.
  unfold submit_try, abind, alift, localStorage_setItem.
  destruct (auth_call server a) as [response|e] eqn:C.
  - destruct (get (data response) (u "access_token")) as [token|e] eqn:G.
    + unfold abind, alift.
      destruct (ToString ToString_coerce token) as [s|e] eqn:S.
      * intros H. injection H as <- <-. right. exists response, token, s.
        repeat split; auto.
      * intros H. injection H as <- <-. left. exists e. repeat split.
        right. exists response. split; [reflexivity |]. right. now exists token.
    + intros H. injection H as <- <-. left. exists e. repeat split.
      right. exists response. split; [reflexivity |]. now left.
  - intros H. injection H as <- <-. left. exists e. repeat split. now left.
Qed.

(** The [catch] block either shows one error toast or throws before it
    has changed anything. *)
Lemma submit_catch_cases ToString_coerce error_message (e : exn) (a : App) :
  (exists msg,
     errorMessage ToString_coerce error_message e = Ret msg /\
     submit_catch ToString_coerce error_message e a
     = (Ret tt, snd (toast ToastError msg a))) \/
  (exists e',
     errorMessage ToString_coerce error_message e = Throw e' /\
     submit_catch ToString_coerce error_message e a = (Throw e', a)).
Proof.
  unfold submit_catch, abind, alift.
  destruct (errorMessage ToString_coerce error_message e) as [msg|e'].
  - left. now exists msg.
  - right. now exists e'.
Qed.

(** X12. However a submit ends - success, a rejected request, even an
    exception inside the error handling - the form leaves its loading
    state, shows at most one toast, and keeps its mode and its fields. *)
Theorem X12_submit_always_stops_loading :
  forall ToString_coerce error_message server (a : App),
    isLoading (snd (handleSubmit ToString_coerce error_message server a)) = false /\
    (notices (snd (handleSubmit ToString_coerce error_message server a)) = notices a \/
     exists t,
       notices (snd (handleSubmit ToString_coerce error_message server a))
       = notices a ++ [t]) /\
    isLogin (snd (handleSubmit ToString_coerce error_message server a)) = isLogin a /\
    formData (snd (handleSubmit ToString_coerce error_message server a)) = formData a.
Proof.
  intros ToS em server a.
  unfold handleSubmit, abind, a_try_catch_finally. cbn [setIsLoading].
  set (a0 := {| storage := storage a; isLogin := isLogin a; isLoading := true;
                formData := formData a; isLoggedIn := isLoggedIn a;
                searchQuery := searchQuery a; notices := notices a;
                visited := visited a |}).
  destruct (submit_try ToS server a0) as [r a1] eqn:T.
  destruct (submit_try_cases _ _ _ _ _ T)
    as [(e & -> & -> & _) | (response & token & s & -> & _ & _ & _ & ->)].
  - destruct (submit_catch_cases ToS em e a0) as [(msg & _ & ->) | (e' & _ & ->)];
      simpl; repeat split; eauto.
  - simpl. repeat split; eauto.
Qed.



(** X14. A 2xx answer that carries no [access_token] still counts as a
    success: the string [undefined] is stored as the token, the success
    toast is shown, the form goes to the dashboard, and every later
    request carries [Authorization: Bearer undefined]. *)
Theorem X14_missing_token_stored_as_undefined :
  forall ToString_coerce error_message server (a : App) response,
    auth_call server a = Ret response ->
    get (data response) (u "access_token") = Ret JUndefined ->
    exists a',
      handleSubmit ToString_coerce error_message server a = (Ret tt, a') /\
      storage a' !! k_token = Some (u "undefined") /\
      notices a' = notices a ++ [success_toast a] /\
      visited a' = visited a ++ [u "/dashboard"] /\
      forall config,
        headers (requestInterceptor (storage a') config) !! k_Authorization
        = Some (u "Bearer undefined").
Proof.
  intros ToS em server a response C G.
  unfold handleSubmit, abind, a_try_catch_finally. cbn [setIsLoading].
  set (a0 := {| storage := storage a; isLogin := isLogin a; isLoading := true;
                formData := formData a; isLoggedIn := isLoggedIn a;
                searchQuery := searchQuery a; notices := notices a;
                visited := visited a |}).
  assert (C0 : auth_call server a0 = Ret response) by exact C.
  unfold submit_try, abind, alift, localStorage_setItem.
  rewrite C0, G. unfold abind, alift. cbn [ToString].
  eexists. split; [reflexivity |]. simpl. repeat split.
  - apply lookup_insert_eq.
  - intros config.
    apply (interceptor_with_stored_token _ (u "undefined"));
      [apply lookup_insert_eq | discriminate].
Qed.

Lemma X14_witness :
  exists a',
    handleSubmit tostring_none message_none (always (ok_reply (JObj []))) freshApp
      = (Ret tt, a') /\
    storage a' !! k_token = Some (u "undefined") /\
    notices a' = notices freshApp ++ [success_toast freshApp] /\
    visited a' = visited freshApp ++ [u "/dashboard"] /\
    forall config,
      headers (requestInterceptor (storage a') config) !! k_Authorization
      = Some (u "Bearer undefined").
Proof.
  apply (X14_missing_token_stored_as_undefined tostring_none message_none
           (always (ok_reply (JObj []))) freshApp (mkResponse 200 (JObj [])));
    reflexivity.
Defined.

Lemma detail_line_entry ToString_coerce (err : jsval) (p : list N * list N) :
  validation_entry err p -> detail_line ToString_coerce err = Ret (entry_line p).
Proof.
  intros (loc & L & F & Mg). unfold detail_line. rewrite L. cbn [obind].
  rewrite F. cbn [obind ToString]. rewrite Mg. reflexivity.
Qed.

Lemma Array_map_entries ToString_coerce (errs : list jsval) (ps : list (list N * list N)) :
  Forall2 validation_entry errs ps ->
  Array_map (detail_line ToString_coerce) errs = Ret (map entry_line ps).
Proof.
  induction 1 as [|err p errs ps H _ IH]; [reflexivity |].
  cbn [Array_map]. rewrite (detail_line_entry _ _ _ H). cbn [obind].
  rewrite IH. reflexivity.
Qed.

(** What a submit does once the request is rejected and the handler has
    built its message. *)
Lemma rejected_submit ToString_coerce error_message server (a : App) (e : exn) (msg : jsval) :
  auth_call server a = Throw e ->
  errorMessage ToString_coerce error_message e = Ret msg ->
  exists a',
    handleSubmit ToString_coerce error_message server a = (Ret tt, a') /\
    notices a' = notices a ++ [(ToastError, msg)] /\
    storage a' = storage a /\
    visited a' = visited a /\
    isLoading a' = false.
Proof.
  intros C E.
  unfold handleSubmit, abind, a_try_catch_finally. cbn [setIsLoading].
  set (a0 := {| storage := storage a; isLogin := isLogin a; isLoading := true;
                formData := formData a; isLoggedIn := isLoggedIn a;
                searchQuery := searchQuery a; notices := notices a;
                visited := visited a |}).
  assert (C0 : auth_call server a0 = Throw e) by exact C.
  unfold submit_try, abind, alift. rewrite C0.
  unfold submit_catch, abind, alift. rewrite E.
  eexists. split; [reflexivity |]. simpl. repeat split.
Qed.

(** X15. Validation errors are flattened in order: when the request is
    rejected with a body whose [detail] is an array of entries with a
    string at [loc[1]] and a string [msg], the error toast is the text
    [field: msg] of each entry, joined by a comma and a space (the empty
    text for an empty array); nothing is stored and the form stays where
    it is. *)
Theorem X15_validation_errors_flattened :
  forall ToString_coerce error_message server (a : App) st (body : jsval)
         (errs : list jsval) (entries : list (list N * list N)),
    auth_call server a = Throw (HttpError st body) ->
    ToBoolean body = true ->
    get body (u "detail") = Ret (JArr errs) ->
    Forall2 validation_entry errs entries ->
    exists a',
      handleSubmit ToString_coerce error_message server a = (Ret tt, a') /\
      notices a'
        = notices a ++ [(ToastError, JStr (join (u ", ") (map entry_line entries)))] /\
      storage a' = storage a /\
      visited a' = visited a /\
      isLoading a' = false.
Proof.
  intros ToS em server a st body errs entries C B D F.
  apply (rejected_submit ToS em server a (HttpError st body)); [exact C |].
  unfold errorMessage. cbn [error_response_data]. rewrite B, D. cbn [obind].
  rewrite (Array_map_entries _ _ _ F). reflexivity.
Qed.

Lemma X15_witness :
  exists a',
    handleSubmit tostring_none message_none
      (always (Reply (mkResponse 422
         (JObj [(u "detail",
                 JArr [fastapi_entry "email" "invalid"; fastapi_entry "password" "too short"])]))))
      freshApp = (Ret tt, a') /\
    notices a'
      = notices freshApp
        ++ [(ToastError,
             JStr (join (u ", ")
                     (map entry_line [(u "email", u "invalid");
                                      (u "password", u "too short")])))] /\
    storage a' = storage freshApp /\
    visited a' = visited freshApp /\
    isLoading a' = false.
Proof.
  apply (X15_validation_errors_flattened tostring_none message_none _ freshApp 422
           (JObj [(u "detail",
                   JArr [fastapi_entry "email" "invalid";
                         fastapi_entry "password" "too short"])])
           [fastapi_entry "email" "invalid"; fastapi_entry "password" "too short"]
           [(u "email", u "invalid"); (u "password", u "too short")]);
    try reflexivity.
  repeat constructor; eexists; repeat split; reflexivity.
Defined.

Example flattened_text :
  join (u ", ") (map entry_line [(u "email", u "invalid"); (u "password", u "too short")])
  = u "email: invalid, password: too short".
Proof. reflexivity. Qed.

(** X16. A rejected request never signs anybody in: nothing is written
    to the storage, the form does not navigate, and the only toast it
    can add is an error toast. *)
Theorem X16_rejected_submit_changes_no_session :
  forall ToString_coerce error_message server (a : App) (e : exn),
    auth_call server a = Throw e ->
    storage (snd (handleSubmit ToString_coerce error_message server a)) = storage a /\
    visited (snd (handleSubmit ToString_coerce error_message server a)) = visited a /\
    (notices (snd (handleSubmit ToString_coerce error_message server a)) = notices a \/
     exists msg,
       notices (snd (handleSubmit ToString_coerce error_message server a))
       = notices a ++ [(ToastError, msg)]).
Proof.
  intros ToS em server a e C.
  unfold handleSubmit, abind, a_try_catch_finally. cbn [setIsLoading].
  set (a0 := {| storage := storage a; isLogin := isLogin a; isLoading := true;
                formData := formData a; isLoggedIn := isLoggedIn a;
                searchQuery := searchQuery a; notices := notices a;
                visited := visited a |}).
  assert (C0 : auth_call server a0 = Throw e) by exact C.
  unfold submit_try, abind, alift. rewrite C0.
  destruct (submit_catch_cases ToS em e a0) as [(msg & _ & ->) | (e' & _ & ->)];
    simpl; repeat split; eauto.
Qed.

Lemma X16_witness :
  storage (snd (handleSubmit tostring_none message_none (always NoReply) freshApp))
    = storage freshApp /\
  visited (snd (handleSubmit tostring_none message_none (always NoReply) freshApp))
    = visited freshApp /\
  (notices (snd (handleSubmit tostring_none message_none (always NoReply) freshApp))
     = notices freshApp \/
   exists msg,
     notices (snd (handleSubmit tostring_none message_none (always NoReply) freshApp))
     = notices freshApp ++ [(ToastError, msg)]).
Proof.
  apply (X16_rejected_submit_changes_no_session tostring_none message_none
           (always NoReply) freshApp NetworkError).
  reflexivity.
Defined.

(** X17. A [detail] that is truthy but no array is handed to the toast
    as it is, whatever its type: a string is shown as that string, and
    an object reaches the toast as an object. *)
Theorem X17_detail_passed_to_toast_unchanged :
  forall ToString_coerce error_message server (a : App) st (body detail : jsval),
    auth_call server a = Throw (HttpError st body) ->
    ToBoolean body = true ->
    get body (u "detail") = Ret detail ->
    ToBoolean detail = true ->
    Array_isArray detail = false ->
    exists a',
      handleSubmit ToString_coerce error_message server a = (Ret tt, a') /\
      notices a' = notices a ++ [(ToastError, detail)].
Proof.
  intros ToS em server a st body detail C B D Bd Na.
  destruct (rejected_submit ToS em server a (HttpError st body) detail C)
    as (a' & H & N & _).
  - unfold errorMessage. cbn [error_response_data]. rewrite B, D. cbn [obind].
    destruct detail; try discriminate; cbn [ToBoolean] in Bd |- *;
      try rewrite Bd; reflexivity.
  - exists a'. now split.
Qed.

Lemma X17_witness :
  exists a',
    handleSubmit tostring_none message_none
      (always (Reply (mkResponse 400
         (JObj [(u "detail", JObj [(u "code", JStr (u "E1"))])])))) freshApp
      = (Ret tt, a') /\
    notices a' = notices freshApp ++ [(ToastError, JObj [(u "code", JStr (u "E1"))])].
Proof.
  apply (X17_detail_passed_to_toast_unchanged tostring_none message_none _ freshApp 400
           (JObj [(u "detail", JObj [(u "code", JStr (u "E1"))])])
           (JObj [(u "code", JStr (u "E1"))]));
    reflexivity.
Defined.

(** X18. An error body that is plain text yields the generic message:
    for a rejected request whose body is a non-empty string the toast is
    [An error occurred], whatever message the error object carries. *)
Theorem X18_text_body_gives_generic_message :
  forall ToString_coerce error_message server (a : App) st (text : list N),
    auth_call server a = Throw (HttpError st (JStr text)) ->
    text <> [] ->
    exists a',
      handleSubmit ToString_coerce error_message server a = (Ret tt, a') /\
      notices a' = notices a ++ [(ToastError, JStr (u "An error occurred"))].
Proof.
  intros ToS em server a st text C Hne.
  destruct (rejected_submit ToS em server a (HttpError st (JStr text))
              (JStr (u "An error occurred")) C) as (a' & H & N & _).
  - unfold errorMessage. cbn [error_response_data].
    destruct text as [|c text]; [congruence |]. reflexivity.
  - exists a'. now split.
Qed.

Lemma X18_witness :
  exists a',
    handleSubmit tostring_none (fun _ => JStr (u "Request failed with status code 500"))
      (always (Reply (mkResponse 500 (JStr (u "Internal Server Error"))))) freshApp
      = (Ret tt, a') /\
    notices a' = notices freshApp ++ [(ToastError, JStr (u "An error occurred"))].
Proof.
  apply (X18_text_body_gives_generic_message tostring_none
           (fun _ => JStr (u "Request failed with status code 500")) _ freshApp 500
           (u "Internal Server Error"));
    [reflexivity | discriminate].
Defined.

(** X19. Signing out removes the token and nothing else from the
    storage, marks the bar as signed out, shows one success toast and
    goes to the start page; from then on the interceptor returns every
    request configuration as it came. *)
Theorem X19_logout_clears_token :
  forall (a : App),
    exists a',
      handleLogout a = (Ret tt, a') /\
      storage a' !! k_token = None /\
      (forall k, k <> k_token -> storage a' !! k = storage a !! k) /\
      isLoggedIn a' = false /\
      notices a' = notices a ++ [(ToastSuccess, JStr (u "Logged out successfully"))] /\
      visited a' = visited a ++ [u "/"] /\
      (forall config, requestInterceptor (storage a') config = config).
Proof.
  intros a. eexists. split; [reflexivity |]. simpl. repeat split.
  - apply lookup_delete_eq.
  - intros k Hk. now apply lookup_delete_ne.
  - intros config. apply interceptor_without_token. apply lookup_delete_eq.
Qed.

(** X20. The bar and the interceptor agree on what signed in means:
    when the bar mounts as signed in, a token is stored and the
    interceptor attaches it to every request; when it mounts as signed
    out, the interceptor returns every request configuration as it
    came. *)
Theorem X20_navbar_agrees_with_interceptor :
  forall (a : App),
    (isLoggedIn (snd (Navbar_mount a)) = true ->
     exists t,
       storage a !! k_token = Some t /\
       forall config,
         headers (requestInterceptor (storage a) config) !! k_Authorization
         = Some (u "Bearer " ++ t)) /\
    (isLoggedIn (snd (Navbar_mount a)) = false ->
     forall config, requestInterceptor (storage a) config = config).
Proof.
  intros a. unfold Navbar_mount, setIsLoggedIn, getItem. cbn [snd isLoggedIn].
  destruct (storage a !! k_token) as [t|] eqn:E.
  - split.
    + intros B. exists t. split; [reflexivity |]. intros config.
      apply interceptor_with_stored_token; [exact E |].
      intros ->. discriminate B.
    + intros B config. unfold requestInterceptor, getItem. rewrite E. now rewrite B.
  - split; [discriminate |].
    intros _ config. now apply interceptor_without_token.
Qed.






Example search_spaces_only :
  handleSearch (fun s => Some s) (u "   ") = NoNavigation.
Proof. reflexivity. Qed.

(** * The page after a failed load *)

(** X22. When the backend cannot be reached or answers outside 2xx and
    the search box is empty, the page lists the whole built-in dataset:
    after the load, [filteredBooks] is the six demo records in their
    order. *)
Theorem X22_failed_load_lists_demo_books :
  forall coerce toLowerCase backend w,
    toLowerCase [] = [] ->
    searchTerm w = [] ->
    backend = NoReply \/ (exists r, backend = Reply r /\ validateStatus (status r) = false) ->
    fst (filteredBooks toLowerCase (snd (fetchBooks coerce backend w))) = Ret MOCK_BOOKS.
Proof.
  intros coerce toLowerCase backend w Hnil Hterm Hfail.
  destruct (failed_fetch_throws coerce backend w Hfail) as [e He].
  unfold fetchBooks, try_catch_finally. rewrite He.
  unfold catch_block, bind, console_error, console_write, setBooks, toast_error, setLoading.
  cbn [snd]. unfold filteredBooks, bind, useBooks, useSearchTerm. cbn [books searchTerm].
  rewrite Hterm. unfold MOCK_BOOKS, call_filter, bind.
  rewrite Array_filter_empty_term;
    [reflexivity | exact Hnil | exact MOCK_LIST_searchable | exact MOCK_LIST_has_text].
Qed.

Lemma X22_witness :
  fst (filteredBooks asciiLower (snd (fetchBooks coerce_nan NoReply initialWorld)))
  = Ret MOCK_BOOKS.
Proof.
  apply (X22_failed_load_lists_demo_books coerce_nan asciiLower NoReply initialWorld);
    [reflexivity | reflexivity | left; reflexivity].
Defined.

(** * Order of evaluation in the filter callback, and what a submit sends *)

(** X23. The callback reads the author only when the title does not
    match: a record whose title contains the term is kept whatever its
    author and genre are, while a record whose title is a string or
    absent and does not match, and whose author is neither a string nor
    absent, makes the callback throw a TypeError. So a catalog with such
    a record breaks for some search terms and not for others. *)
Theorem X23_author_read_only_after_title :
  forall toLowerCase (term : list N) (book : jsval),
    (forall s,
       get book k_title = Ret (JStr s) ->
       includes (toLowerCase s) (toLowerCase term) = true ->
       book_matches toLowerCase term book = Ret (JBool true)) /\
    (forall t v,
       get book k_title = Ret t ->
       text_or_absent t ->
       (forall s, t = JStr s -> includes (toLowerCase s) (toLowerCase term) = false) ->
       get book k_author = Ret v ->
       ~ text_or_absent v ->
       book_matches toLowerCase term book = Throw TypeError).
Proof.
  intros toLowerCase term book. split.
  - intros s G I. unfold book_matches, field_includes. rewrite G. cbn [obind].
    now rewrite I.
  - intros t v G Ht Hno Ga Hv. unfold book_matches, field_includes.
    rewrite G. cbn [obind].
    assert (E : exists f,
               match t with
               | JUndefined | JNull => Ret JUndefined
               | JStr s => Ret (JBool (includes (toLowerCase s) (toLowerCase term)))
               | _ => Throw TypeError
               end = Ret f /\ ToBoolean f = false).
    { destruct Ht as [-> | [-> | [s ->]]].
      - now exists JUndefined.
      - now exists JUndefined.
      - exists (JBool false). now rewrite (Hno s eq_refl). }
    destruct E as (f & -> & Bf). cbn [obind]. rewrite Bf, Ga. cbn [obind].
    destruct v as [| |b|n|s|l|fields]; try reflexivity.
    + exfalso. apply Hv. now left.
    + exfalso. apply Hv. right. now left.
    + exfalso. apply Hv. right. right. now exists s.
Qed.

Example author_number_term_dependent :
  book_matches asciiLower (u "dune")
    (JObj [(u "title", JStr (u "Dune")); (u "author", JNum (num_of_nat 7))])
  = Ret (JBool true) /\
  book_matches asciiLower (u "herbert")
    (JObj [(u "title", JStr (u "Dune")); (u "author", JNum (num_of_nat 7))])
  = Throw TypeError.
Proof. split; reflexivity. Qed.

(** X24. A submit talks to one endpoint only. In sign-in mode its whole
    effect depends on the backend only through the answer to the POST of
    the e-mail and the password to [/auth/login]: the name and the phone
    number are not sent. In registration mode it depends only on the
    answer to the POST of the whole form to [/auth/register]. *)
Theorem X24_submit_depends_on_one_request :
  forall ToString_coerce error_message server1 server2 (a : App),
    (isLogin a = true ->
     server1 (u "/auth/login")
       (JObj [(u "email", JStr (email (formData a)));
              (u "password", JStr (password (formData a)))])
     = server2 (u "/auth/login")
         (JObj [(u "email", JStr (email (formData a)));
                (u "password", JStr (password (formData a)))]) ->
     handleSubmit ToString_coerce error_message server1 a
     = handleSubmit ToString_coerce error_message server2 a) /\
    (isLogin a = false ->
     server1 (u "/auth/register") (formData_value (formData a))
     = server2 (u "/auth/register") (formData_value (formData a)) ->
     handleSubmit ToString_coerce error_message server1 a
     = handleSubmit ToString_coerce error_message server2 a).
Proof.
  intros ToS em server1 server2 a.
  split; intros L E;
    unfold handleSubmit, abind, a_try_catch_finally, submit_try, abind, alift, auth_call;
    cbn [setIsLoading isLogin formData]; rewrite L;
    unfold authAPI_login, authAPI_register, api_post; now rewrite E.
Qed.
